(** * GPA computation core: grade-point averages, cumulative aggregation,
      weighted display cap and prediction blending.

    Shallow embedding of [types/gpa.ts] ([calculateGPA],
    [calculateCumulativeGPA], the scale tables) and of
    [PredictionScreen.tsx] ([calculateProjectedGPA]), followed by the
    handlers of the screens that feed these functions and show their
    results, and by the storage keys of [useUserStorage].

    Numbers.  The platform computes in binary64.  The functions are
    embedded twice over the same data:

    - in exact arithmetic, on [number]: a finite value carried as an
      exact rational, [NaN], or a signed infinity.  This is where the
      theorems are proved.  A theorem is stated only where binary64
      keeps it: it gives the formula the code evaluates, or both sides
      run the same operations, or every value involved is a whole
      number (or a multiple of one half) that binary64 holds exactly,
      or the statement is an order between results that rounding,
      being monotone, preserves;
    - in binary64 itself, on the primitive floats ([calculateGPA_binary64]),
      to replay the inputs on which rounding shows, and the short lists
      of courses the screens can build.

    The data the functions read (credits, grade points, multipliers) are
    finite, so they are rationals, read as decimal literals.

    Objects.  A [Record<string, number>] table is an object literal:
    reading a key that is not its own falls through to the members every
    object inherits from [Object.prototype], which are functions or
    objects, not numbers. *)

From Stdlib Require Import QArith Qfield Lqa List String Bool Setoid Morphisms.
From Stdlib Require Import ZArith Permutation Sorted Floats Uint63.

Set Warnings "-inexact-float".
Import ListNotations.
Local Open Scope Q_scope.

(* ================================================================= *)
(** ** JavaScript numbers *)

(** A number in exact arithmetic: a finite value as a rational, [NaN],
    or a signed infinity.  The operations follow IEEE 754 on the special
    values and are exact on the finite ones. *)
Inductive number : Type :=
| Fin (q : Q)
| NaN
| Inf (negative : bool).

Definition Qltb (a b : Q) : bool := negb (Qle_bool b a).

(** [isNaN(x)] *)
Definition isNaN (x : number) : bool :=
  match x with NaN => true | _ => false end.

(** [x + y] *)
Definition num_add (x y : number) : number :=
  match x, y with
  | NaN, _ | _, NaN => NaN
  | Fin a, Fin b => Fin (a + b)
  | Inf s, Inf t => if Bool.eqb s t then Inf s else NaN
  | Inf s, Fin _ | Fin _, Inf s => Inf s
  end.

(** [x * y] *)
Definition num_mul (x y : number) : number :=
  match x, y with
  | NaN, _ | _, NaN => NaN
  | Fin a, Fin b => Fin (a * b)
  | Inf s, Inf t => Inf (xorb s t)
  | Inf s, Fin q | Fin q, Inf s =>
      if Qeq_bool q 0 then NaN else Inf (xorb s (Qltb q 0))
  end.

(** [x / y] *)
Definition num_div (x y : number) : number :=
  match x, y with
  | NaN, _ | _, NaN => NaN
  | Fin a, Fin b =>
      if Qeq_bool b 0
      then (if Qeq_bool a 0 then NaN else Inf (Qltb a 0))
      else Fin (a / b)
  | Fin _, Inf _ => Fin 0
  | Inf s, Fin b => Inf (xorb s (Qltb b 0))
  | Inf _, Inf _ => NaN
  end.

(** [x > y] *)
Definition num_gt (x y : number) : bool :=
  match x, y with
  | NaN, _ | _, NaN => false
  | Fin a, Fin b => Qltb b a
  | Inf true, _ => false
  | Inf false, Inf false => false
  | Inf false, _ => true
  | Fin _, Inf t => t
  end.

(** Two model values denote the same number. *)
Definition num_eq (x y : number) : Prop :=
  match x, y with
  | Fin a, Fin b => a == b
  | NaN, NaN => True
  | Inf s, Inf t => s = t
  | _, _ => False
  end.

Declare Scope num_scope.
Delimit Scope num_scope with num.
Bind Scope num_scope with number.
Infix "+" := num_add : num_scope.
Infix "*" := num_mul : num_scope.
Infix "/" := num_div : num_scope.
Infix ">?" := num_gt (at level 70, no associativity) : num_scope.
Infix "=n=" := num_eq (at level 70, no associativity).

(** [a ?? b] on the result of a property read: [None] is [undefined]. *)
Definition nullish {A : Type} (a : option A) (b : A) : A :=
  match a with Some v => v | None => b end.

(** Truthiness of an optional boolean field. *)
Definition truthy (b : option bool) : bool :=
  match b with Some true => true | _ => false end.

(* ================================================================= *)
(** ** Data model ([types/gpa.ts]) *)

Inductive GPAScale : Type := US | AU.

Definition GPAScale_eqb (a b : GPAScale) : bool :=
  match a, b with US, US | AU, AU => true | _, _ => false end.

Inductive WeightType : Type := AP | Honours | Standard.

Module Course.
Record t : Type := mk {
  id : string;
  name : string;
  grade : string;
  credits : Q;
  isWeighted : option bool;
  weightType : option WeightType
}.
End Course.

Module Semester.
Record t : Type := mk {
  id : string;
  name : string;
  term : string;
  courses : list Course.t;
  scale : GPAScale
}.
End Semester.

Module WeightMultipliers.
Record t : Type := mk { AP : Q; Honours : Q; Standard : Q }.
End WeightMultipliers.

(** [multipliers[weightType]] *)
Definition WeightMultipliers_get
    (m : WeightMultipliers.t) (w : WeightType) : Q :=
  match w with
  | AP => WeightMultipliers.AP m
  | Honours => WeightMultipliers.Honours m
  | Standard => WeightMultipliers.Standard m
  end.

Module PredictionCourse.
Record t : Type := mk {
  id : string;
  name : string;
  expectedGrade : string;
  credits : Q;
  isWeighted : option bool;
  weightType : option WeightType
}.
End PredictionCourse.

Definition DEFAULT_WEIGHT_MULTIPLIERS : WeightMultipliers.t :=
  {| WeightMultipliers.AP := 1.0;
     WeightMultipliers.Honours := 0.5;
     WeightMultipliers.Standard := 0 |}.

Definition US_GRADES : list string :=
  ["A"; "A-"; "B+"; "B"; "B-"; "C+"; "C"; "C-"; "D+"; "D"; "D-"; "F"]%string.
Definition AU_GRADES : list string := ["HD"; "D"; "C"; "P"; "F"]%string.

(** [Record<string, number>]: own keys in declaration order. *)
Definition Record_string_number : Type := list (string * Q).

(** What reading a key of a table can give: a number, or one of the
    members every object inherits, a function or an object, which is not
    a number.  Adding to such a value gives a string, again not a
    number. *)
Inductive JSValue : Type :=
| VNumber (q : Q)
| VOther.

(** [Number(v)], as the arithmetic operators apply it. *)
Definition ToNumber (v : JSValue) : number :=
  match v with
  | VNumber q => Fin q
  | VOther => NaN
  end.

(** [v + m] for a finite number [m]. *)
Definition JSValue_add (v : JSValue) (m : Q) : JSValue :=
  match v with
  | VNumber q => VNumber (q + m)
  | VOther => VOther
  end.

(** The names found on [Object.prototype]. *)
Definition Object_prototype_keys : list string :=
  [ "constructor"; "__proto__"; "hasOwnProperty"; "isPrototypeOf";
    "propertyIsEnumerable"; "toLocaleString"; "toString"; "valueOf";
    "__defineGetter__"; "__defineSetter__"; "__lookupGetter__";
    "__lookupSetter__" ]%string.

(** The entry of an own key. *)
Fixpoint Record_own (table : Record_string_number) (key : string) : option Q :=
  match table with
  | [] => None
  | (k, v) :: rest => if String.eqb k key then Some v else Record_own rest key
  end.

(** [table[key]]: the own entry, else the inherited member of that name,
    else [undefined], for which [None] stands. *)
Definition Record_get (table : Record_string_number) (key : string)
  : option JSValue :=
  match Record_own table key with
  | Some v => Some (VNumber v)
  | None =>
      if existsb (String.eqb key) Object_prototype_keys
      then Some VOther
      else None
  end.

Definition US_GRADE_POINTS : Record_string_number :=
  [ ("A", 4.0); ("A-", 3.7); ("B+", 3.3); ("B", 3.0); ("B-", 2.7);
    ("C+", 2.3); ("C", 2.0); ("C-", 1.7); ("D+", 1.3); ("D", 1.0);
    ("D-", 0.7); ("F", 0.0) ]%string.

Definition AU_GRADE_POINTS : Record_string_number :=
  [ ("HD", 7.0); ("D", 6.0); ("C", 5.0); ("P", 4.0); ("F", 0.0) ]%string.

Definition US_CREDIT_OPTIONS : list Q := [1; 2; 3; 4; 5; 6].
Definition AU_CREDIT_OPTIONS : list Q := [10; 20].

Module ScaleConfig.
Record t : Type := mk {
  grades : list string;
  points : Record_string_number;
  max : Q;
  weightedMax : Q;
  label : string;
  creditLabel : string;
  creditOptions : list Q;
  gpaLabel : string
}.
End ScaleConfig.

Definition SCALE_CONFIG (scale : GPAScale) : ScaleConfig.t :=
  match scale with
  | US =>
      {| ScaleConfig.grades := US_GRADES;
         ScaleConfig.points := US_GRADE_POINTS;
         ScaleConfig.max := 4.0;
         ScaleConfig.weightedMax := 5.0;
         ScaleConfig.label := "US (4.0)";
         ScaleConfig.creditLabel := "Credit Hours";
         ScaleConfig.creditOptions := US_CREDIT_OPTIONS;
         ScaleConfig.gpaLabel := "GPA (4.0 scale)" |}
  | AU =>
      {| ScaleConfig.grades := AU_GRADES;
         ScaleConfig.points := AU_GRADE_POINTS;
         ScaleConfig.max := 7.0;
         ScaleConfig.weightedMax := 7.0;
         ScaleConfig.label := "AU (7.0)";
         ScaleConfig.creditLabel := "Credit Points";
         ScaleConfig.creditOptions := AU_CREDIT_OPTIONS;
         ScaleConfig.gpaLabel := "GPA (7.0 scale)" |}
  end.

(* ================================================================= *)
(** ** [calculateGPA] *)

(** The body of the [forEach] callback: one course folded into the pair
    [(totalPoints, totalCredits)]. *)
Definition calculateGPA_step
    (config : ScaleConfig.t) (scale : GPAScale) (useWeighting : bool)
    (multipliers : WeightMultipliers.t)
    (acc : number * number) (course : Course.t) : number * number :=
  let '(totalPoints, totalCredits) := acc in
  let baseGradePoint : JSValue :=
    nullish (Record_get (ScaleConfig.points config) (Course.grade course))
            (VNumber 0) in
  let gradePoint : JSValue :=
    match Course.weightType course with
    | Some weightType =>
        if useWeighting && truthy (Course.isWeighted course)
           && GPAScale_eqb scale US
        then JSValue_add baseGradePoint
                         (WeightMultipliers_get multipliers weightType)
        else baseGradePoint
    | None => baseGradePoint
    end in
  ((totalPoints + ToNumber gradePoint * Fin (Course.credits course))%num,
   (totalCredits + Fin (Course.credits course))%num).

(** The loop of [calculateGPA]: the value of [(totalPoints, totalCredits)]
    once [forEach] has visited every course. *)
Definition calculateGPA_totals
    (courses : list Course.t) (scale : GPAScale) (useWeighting : bool)
    (multipliers : WeightMultipliers.t) : number * number :=
  let config := SCALE_CONFIG scale in
  fold_left (calculateGPA_step config scale useWeighting multipliers)
            courses (Fin 0, Fin 0).

Definition calculateGPA
    (courses : list Course.t) (scale : GPAScale) (useWeighting : bool)
    (multipliers : WeightMultipliers.t) : number :=
  if Nat.eqb (List.length courses) 0 then Fin 0
  else
    let '(totalPoints, totalCredits) :=
      calculateGPA_totals courses scale useWeighting multipliers in
    if (totalCredits >? Fin 0)%num
    then (totalPoints / totalCredits)%num
    else Fin 0.

(** ** [calculateCumulativeGPA] *)
Definition calculateCumulativeGPA
    (semesters : list Semester.t) (useWeighting : bool)
    (multipliers : WeightMultipliers.t) : number :=
  let allCourses := flat_map Semester.courses semesters in
  if Nat.eqb (List.length allCourses) 0 then Fin 0
  else
    let scale :=
      match nth_error semesters 0 with
      | Some s => Semester.scale s
      | None => US
      end in
    calculateGPA allCourses scale useWeighting multipliers.

(* ================================================================= *)
(** ** [getWeightedGPACap] *)

Definition hasWeightType (w : WeightType) (course : Course.t) : bool :=
  match Course.weightType course, w with
  | Some AP, AP | Some Honours, Honours | Some Standard, Standard => true
  | _, _ => false
  end.

(** Modelled from the spec: [getWeightedGPACap] is imported from
    [types/gpa] by the semester screens, but its body is missing from the
    module as available.  Section 4.4: if the course set contains at least one
    course with [weightType === "AP"], the cap is the scale's weighted
    maximum (5.0 for US); otherwise, if it contains at least one
    ["Honours"] course but no AP, the cap is [scale.max +
    multipliers.Honours]; if no weighted courses are present at all, the
    cap equals the scale's unweighted maximum.  The function receives the
    courses only: the scale is US, the one scale that weights, and the
    multipliers are the default ones. *)
Definition getWeightedGPACap (courses : list Course.t) : number :=
  let config := SCALE_CONFIG US in
  if existsb (hasWeightType AP) courses
  then Fin (ScaleConfig.weightedMax config)
  else if existsb (hasWeightType Honours) courses
  then (Fin (ScaleConfig.max config)
        + Fin (WeightMultipliers.Honours DEFAULT_WEIGHT_MULTIPLIERS))%num
  else Fin (ScaleConfig.max config).

(* ================================================================= *)
(** ** [calculateProjectedGPA] ([PredictionScreen.tsx]) *)

Section Prediction.

(** The platform's [parseFloat]: any function from text to numbers,
    [NaN] being its answer on blank or unparseable text. *)
Variable parseFloat : string -> number.

(** The component state read by the callback ([currentGPA],
    [currentCredits], [courses], [scale]) is passed as arguments. *)
Definition calculateProjectedGPA
    (currentGPA currentCredits : string)
    (courses : list PredictionCourse.t) (scale : GPAScale) : number :=
  let currentGPAValue := parseFloat currentGPA in
  let currentCreditsValue := parseFloat currentCredits in
  if Nat.eqb (List.length courses) 0
  then (if isNaN currentGPAValue then Fin 0 else currentGPAValue)
  else
    let futureCourses : list Course.t :=
      map (fun c =>
             {| Course.id := PredictionCourse.id c;
                Course.name := PredictionCourse.name c;
                Course.grade := PredictionCourse.expectedGrade c;
                Course.credits := PredictionCourse.credits c;
                Course.isWeighted := None;
                Course.weightType := None |}) courses in
    let futureGPA :=
      calculateGPA futureCourses scale false DEFAULT_WEIGHT_MULTIPLIERS in
    let futureCredits :=
      fold_left (fun sum c => (sum + Fin (Course.credits c))%num)
                futureCourses (Fin 0) in
    if negb (isNaN currentGPAValue) && negb (isNaN currentCreditsValue)
       && (currentCreditsValue >? Fin 0)%num
    then
      let totalPoints :=
        (currentGPAValue * currentCreditsValue + futureGPA * futureCredits)%num in
      let totalCredits := (currentCreditsValue + futureCredits)%num in
      if (totalCredits >? Fin 0)%num
      then (totalPoints / totalCredits)%num
      else Fin 0
    else futureGPA.

End Prediction.

(* ================================================================= *)
(** ** Reference formulations

    The quantities the specification speaks of, written independently of
    the loop: the effective grade point of a course and credit-weighted
    sums over a course list. *)

(** [points(s, g)]: the table entry of the grade, 0 when it has none. *)
Definition points (scale : GPAScale) (g : string) : Q :=
  match Record_own (ScaleConfig.points (SCALE_CONFIG scale)) g with
  | Some p => p
  | None => 0
  end.

(** The grade names an inherited member instead of a table entry. *)
Definition inheritedGrade (scale : GPAScale) (g : string) : bool :=
  match Record_get (ScaleConfig.points (SCALE_CONFIG scale)) g with
  | Some VOther => true
  | _ => false
  end.

Definition anyInherited (scale : GPAScale) (courses : list Course.t) : bool :=
  existsb (fun c => inheritedGrade scale (Course.grade c)) courses.

(** The weighting gate of a course: the flag is on, the course opted in,
    it names a weight type, and the scale is US. *)
Definition weightingApplies
    (scale : GPAScale) (useWeighting : bool) (course : Course.t) : bool :=
  match useWeighting, Course.isWeighted course, Course.weightType course, scale with
  | true, Some true, Some _, US => true
  | _, _, _, _ => false
  end.

(** The bonus added to the base point: [multipliers[weightType]] under
    the gate, nothing otherwise. *)
Definition weightBonus
    (scale : GPAScale) (useWeighting : bool) (multipliers : WeightMultipliers.t)
    (course : Course.t) : Q :=
  match Course.weightType course with
  | Some w =>
      if weightingApplies scale useWeighting course
      then WeightMultipliers_get multipliers w
      else 0
  | None => 0
  end.

Definition effectivePoint
    (scale : GPAScale) (useWeighting : bool) (multipliers : WeightMultipliers.t)
    (course : Course.t) : Q :=
  points scale (Course.grade course)
  + weightBonus scale useWeighting multipliers course.

(** Sum of [f] over a list. *)
Definition sumOver {A : Type} (f : A -> Q) (l : list A) : Q :=
  fold_right (fun x acc => f x + acc) 0 l.

Definition sumCredits (courses : list Course.t) : Q :=
  sumOver Course.credits courses.

Definition sumPoints
    (scale : GPAScale) (useWeighting : bool) (multipliers : WeightMultipliers.t)
    (courses : list Course.t) : Q :=
  sumOver (fun c => effectivePoint scale useWeighting multipliers c
                    * Course.credits c) courses.

(** A course that weighting can lift: opted in, with a weight type other
    than ["Standard"]. *)
Definition liftedByWeighting (course : Course.t) : bool :=
  truthy (Course.isWeighted course)
  && (hasWeightType AP course || hasWeightType Honours course).

(** Equality of loop states, component by component. *)
Definition totals_eq (x y : number * number) : Prop :=
  fst x =n= fst y /\ snd x =n= snd y.

(** A number is finite and lies in a closed interval. *)
Definition num_within (lo hi : Q) (x : number) : Prop :=
  match x with
  | Fin q => lo <= q /\ q <= hi
  | _ => False
  end.

Definition asCourse (c : PredictionCourse.t) : Course.t :=
  {| Course.id := PredictionCourse.id c;
     Course.name := PredictionCourse.name c;
     Course.grade := PredictionCourse.expectedGrade c;
     Course.credits := PredictionCourse.credits c;
     Course.isWeighted := None;
     Course.weightType := None |}.

(** A stand-in for [parseFloat] on the few texts the examples below use;
    on those it answers as the platform does, [NaN] on blank text and on
    text that starts no number included. *)
Definition parseFloat_sample (text : string) : number :=
  if String.eqb text "3.0" then Fin 3.0
  else if String.eqb text "3.5" then Fin 3.5
  else if String.eqb text "60" then Fin 60
  else if String.eqb text "1" then Fin 1
  else NaN.

(** Sample inputs. *)
Definition course (g : string) (c : Q) : Course.t :=
  Course.mk "" "" g c None None.
Definition weighted (g : string) (c : Q) (w : WeightType) : Course.t :=
  Course.mk "" "" g c (Some true) (Some w).
Definition expected (g : string) (c : Q) : PredictionCourse.t :=
  PredictionCourse.mk "" "" g c None None.

(* ================================================================= *)
(** ** The screens around the calculator

    The handlers of the screens that feed [calculateGPA] and show its
    result.  A handler reads the component state and the platform
    ([parseInt], [String.prototype.trim], [toLowerCase], [Platform.OS],
    the clock behind [Date.now()]); it answers with the next state and
    the effects it asked for (an alert, a save). *)

(** The finite value of a number, 0 for [NaN] and the infinities. *)
Definition num_value (x : number) : Q :=
  match x with Fin q => q | _ => 0 end.

(** [options.includes(x)] on an array of finite numbers. *)
Definition Array_includes (options : list Q) (x : number) : bool :=
  match x with
  | Fin q => existsb (Qeq_bool q) options
  | _ => false
  end.

(** [array.findIndex(p)], [None] standing for [-1]. *)
Fixpoint Array_findIndex {A : Type} (p : A -> bool) (l : list A) : option nat :=
  match l with
  | [] => None
  | x :: rest =>
      if p x then Some O
      else match Array_findIndex p rest with
           | Some i => Some (S i)
           | None => None
           end
  end.

(** [array[index] = v] for an index inside the array. *)
Fixpoint Array_set {A : Type} (index : nat) (v : A) (l : list A) : list A :=
  match l, index with
  | [], _ => []
  | _ :: rest, O => v :: rest
  | x :: rest, S i => x :: Array_set i v rest
  end.

Inductive Effect : Type :=
| WindowAlert (message : string)
| AlertAlert (title message : string)
| SaveSemester (updated : Semester.t)
| SaveSemesters (updated : list Semester.t).

(** *** [GPACalculatorScreen.tsx] *)

(** The screen's own [calculateGPA], a closure over [courses] and
    [scaleConfig = SCALE_CONFIG[scale]]. *)
Definition GPACalculatorScreen_calculateGPA
    (courses : list Course.t) (scale : GPAScale) : number :=
  let scaleConfig := SCALE_CONFIG scale in
  if Nat.eqb (List.length courses) 0 then Fin 0
  else
    let '(totalPoints, totalCredits) :=
      fold_left
        (fun (acc : number * number) (course : Course.t) =>
           let '(totalPoints, totalCredits) := acc in
           let gradePoint :=
             nullish (Record_get (ScaleConfig.points scaleConfig)
                                 (Course.grade course)) (VNumber 0) in
           ((totalPoints + ToNumber gradePoint * Fin (Course.credits course))%num,
            (totalCredits + Fin (Course.credits course))%num))
        courses (Fin 0, Fin 0) in
    if (totalCredits >? Fin 0)%num
    then (totalPoints / totalCredits)%num
    else Fin 0.

Module CalculatorState.
Record t : Type := mk {
  courseName : string;
  selectedGrade : string;
  credits : string;
  courses : list Course.t;
  scale : GPAScale
}.
End CalculatorState.

(** *** [PredictionScreen.tsx] *)

Module PredictionState.
Record t : Type := mk {
  scale : GPAScale;
  currentGPA : string;
  currentCredits : string;
  courses : list PredictionCourse.t;
  courseName : string;
  selectedGrade : string;
  credits : string
}.
End PredictionState.

(** The state the component starts in. *)
Definition PredictionScreen_initial : PredictionState.t :=
  {| PredictionState.scale := US;
     PredictionState.currentGPA := "";
     PredictionState.currentCredits := "";
     PredictionState.courses := [];
     PredictionState.courseName := "";
     PredictionState.selectedGrade := "A";
     PredictionState.credits := "" |}.

(** [handleDeleteCourse] *)
Definition PredictionScreen_handleDeleteCourse
    (id : string) (st : PredictionState.t) : PredictionState.t :=
  {| PredictionState.scale := PredictionState.scale st;
     PredictionState.currentGPA := PredictionState.currentGPA st;
     PredictionState.currentCredits := PredictionState.currentCredits st;
     PredictionState.courses :=
       filter (fun c => negb (String.eqb (PredictionCourse.id c) id))
              (PredictionState.courses st);
     PredictionState.courseName := PredictionState.courseName st;
     PredictionState.selectedGrade := PredictionState.selectedGrade st;
     PredictionState.credits := PredictionState.credits st |}.

(** The press on a scale button: [setScale(s)] and
    [setSelectedGrade(SCALE_CONFIG[s].grades[0])]. *)
Definition PredictionScreen_pressScale
    (s : GPAScale) (st : PredictionState.t) : PredictionState.t :=
  {| PredictionState.scale := s;
     PredictionState.currentGPA := PredictionState.currentGPA st;
     PredictionState.currentCredits := PredictionState.currentCredits st;
     PredictionState.courses := PredictionState.courses st;
     PredictionState.courseName := PredictionState.courseName st;
     PredictionState.selectedGrade :=
       nth 0 (ScaleConfig.grades (SCALE_CONFIG s)) ""%string;
     PredictionState.credits := PredictionState.credits st |}.

Module DetailState.
Record t : Type := mk {
  semester : option Semester.t;
  courseName : string;
  selectedGrade : string;
  credits : string;
  isWeighted : bool;
  weightType : WeightType;
  useWeightedGPA : bool
}.
End DetailState.

Module SemestersState.
Record t : Type := mk {
  semesters : list Semester.t;
  showAddModal : bool;
  newSemesterName : string;
  newSemesterTerm : string;
  selectedScale : GPAScale;
  useWeightedGPA : bool
}.
End SemestersState.

Section Handlers.

(** [parseInt(text, 10)], [text.trim()], [text.toLowerCase()] and
    [Platform.OS === "web"]. *)
Variable parseInt : string -> number.
Variable trim : string -> string.
Variable toLowerCase : string -> string.
Variable isWeb : bool.

Definition alertMissingName : Effect :=
  if isWeb then WindowAlert "Please enter a course name"
  else AlertAlert "Missing Information" "Please enter a course name".

Definition alertInvalidCredits (config : ScaleConfig.t) : Effect :=
  if isWeb
  then WindowAlert
         ("Please select valid " ++ toLowerCase (ScaleConfig.creditLabel config))
  else AlertAlert "Invalid Credits"
         ("Please select a valid "
          ++ toLowerCase (ScaleConfig.creditLabel config) ++ " value").

(** [PredictionScreen]: [handleAddCourse]; [now] is
    [Date.now().toString()]. *)
Definition PredictionScreen_handleAddCourse
    (now : string) (st : PredictionState.t) : PredictionState.t * list Effect :=
  let config := SCALE_CONFIG (PredictionState.scale st) in
  let creditValue := parseInt (PredictionState.credits st) in
  if String.eqb (trim (PredictionState.courseName st)) ""
  then (st, [alertMissingName])
  else if isNaN creditValue
          || negb (Array_includes (ScaleConfig.creditOptions config) creditValue)
  then (st, [alertInvalidCredits config])
  else
    let newCourse :=
      {| PredictionCourse.id := now;
         PredictionCourse.name := trim (PredictionState.courseName st);
         PredictionCourse.expectedGrade := PredictionState.selectedGrade st;
         PredictionCourse.credits := num_value creditValue;
         PredictionCourse.isWeighted := None;
         PredictionCourse.weightType := None |} in
    ({| PredictionState.scale := PredictionState.scale st;
        PredictionState.currentGPA := PredictionState.currentGPA st;
        PredictionState.currentCredits := PredictionState.currentCredits st;
        PredictionState.courses := PredictionState.courses st ++ [newCourse];
        PredictionState.courseName := "";
        PredictionState.selectedGrade :=
          nth 0 (ScaleConfig.grades config) ""%string;
        PredictionState.credits := "" |}, []).

(** What the user can do on the prediction screen: type into the four
    text fields, pick one of the grades on offer, press a scale button,
    add the course being edited, delete a course. *)
Inductive PredictionScreen_step : PredictionState.t -> PredictionState.t -> Prop :=
| step_setCurrentGPA st text :
    PredictionScreen_step st
      (PredictionState.mk (PredictionState.scale st) text
         (PredictionState.currentCredits st) (PredictionState.courses st)
         (PredictionState.courseName st) (PredictionState.selectedGrade st)
         (PredictionState.credits st))
| step_setCurrentCredits st text :
    PredictionScreen_step st
      (PredictionState.mk (PredictionState.scale st)
         (PredictionState.currentGPA st) text (PredictionState.courses st)
         (PredictionState.courseName st) (PredictionState.selectedGrade st)
         (PredictionState.credits st))
| step_setCourseName st text :
    PredictionScreen_step st
      (PredictionState.mk (PredictionState.scale st)
         (PredictionState.currentGPA st) (PredictionState.currentCredits st)
         (PredictionState.courses st) text (PredictionState.selectedGrade st)
         (PredictionState.credits st))
| step_setSelectedGrade st grade :
    In grade (ScaleConfig.grades (SCALE_CONFIG (PredictionState.scale st))) ->
    PredictionScreen_step st
      (PredictionState.mk (PredictionState.scale st)
         (PredictionState.currentGPA st) (PredictionState.currentCredits st)
         (PredictionState.courses st) (PredictionState.courseName st) grade
         (PredictionState.credits st))
| step_setCredits st text :
    PredictionScreen_step st
      (PredictionState.mk (PredictionState.scale st)
         (PredictionState.currentGPA st) (PredictionState.currentCredits st)
         (PredictionState.courses st) (PredictionState.courseName st)
         (PredictionState.selectedGrade st) text)
| step_pressScale st s :
    PredictionScreen_step st (PredictionScreen_pressScale s st)
| step_addCourse st now :
    PredictionScreen_step st (fst (PredictionScreen_handleAddCourse now st))
| step_deleteCourse st id :
    PredictionScreen_step st (PredictionScreen_handleDeleteCourse id st).

Inductive PredictionScreen_reachable : PredictionState.t -> Prop :=
| reachable_initial : PredictionScreen_reachable PredictionScreen_initial
| reachable_step st st' :
    PredictionScreen_reachable st ->
    PredictionScreen_step st st' ->
    PredictionScreen_reachable st'.

(** [GPACalculatorScreen]: [handleAddCourse]. *)
Definition GPACalculatorScreen_handleAddCourse
    (now : string) (st : CalculatorState.t) : CalculatorState.t * list Effect :=
  let scaleConfig := SCALE_CONFIG (CalculatorState.scale st) in
  let creditValue := parseInt (CalculatorState.credits st) in
  if String.eqb (trim (CalculatorState.courseName st)) ""
  then (st, [alertMissingName])
  else if isNaN creditValue
          || negb (Array_includes (ScaleConfig.creditOptions scaleConfig)
                                  creditValue)
  then (st, [alertInvalidCredits scaleConfig])
  else
    let newCourse :=
      {| Course.id := now;
         Course.name := trim (CalculatorState.courseName st);
         Course.grade := CalculatorState.selectedGrade st;
         Course.credits := num_value creditValue;
         Course.isWeighted := None;
         Course.weightType := None |} in
    ({| CalculatorState.courseName := "";
        CalculatorState.selectedGrade := "A";
        CalculatorState.credits := "";
        CalculatorState.courses := CalculatorState.courses st ++ [newCourse];
        CalculatorState.scale := CalculatorState.scale st |}, []).

(** [SemesterDetailScreen]: [handleAddCourse], in the variant that keeps
    its semesters in the per-user storage. *)
Definition SemesterDetailScreen_handleAddCourse
    (isPremium : bool) (now : string) (st : DetailState.t)
  : DetailState.t * list Effect :=
  match DetailState.semester st with
  | None => (st, [])
  | Some semester =>
      let creditValue := parseInt (DetailState.credits st) in
      let config := SCALE_CONFIG (Semester.scale semester) in
      if String.eqb (trim (DetailState.courseName st)) ""
      then (st, [alertMissingName])
      else if isNaN creditValue
              || negb (Array_includes (ScaleConfig.creditOptions config)
                                      creditValue)
      then (st, [alertInvalidCredits config])
      else
        let weightedHere :=
          isPremium && DetailState.isWeighted st
          && GPAScale_eqb (Semester.scale semester) US in
        let newCourse :=
          {| Course.id := now;
             Course.name := trim (DetailState.courseName st);
             Course.grade := DetailState.selectedGrade st;
             Course.credits := num_value creditValue;
             Course.isWeighted := Some weightedHere;
             Course.weightType :=
               Some (if weightedHere then DetailState.weightType st
                     else Standard) |} in
        let updated :=
          {| Semester.id := Semester.id semester;
             Semester.name := Semester.name semester;
             Semester.term := Semester.term semester;
             Semester.courses := Semester.courses semester ++ [newCourse];
             Semester.scale := Semester.scale semester |} in
        ({| DetailState.semester := Some updated;
            DetailState.courseName := "";
            DetailState.selectedGrade :=
              nth 0 (ScaleConfig.grades config) ""%string;
            DetailState.credits := "";
            DetailState.isWeighted := false;
            DetailState.weightType := DetailState.weightType st;
            DetailState.useWeightedGPA := DetailState.useWeightedGPA st |},
         [SaveSemester updated])
  end.

(** [SemestersScreen]: [handleAddSemester]. *)
Definition SemestersScreen_handleAddSemester
    (now : string) (st : SemestersState.t) : SemestersState.t * list Effect :=
  if String.eqb (trim (SemestersState.newSemesterName st)) ""
  then (st, [if isWeb then WindowAlert "Please enter a semester name"
             else AlertAlert "Missing Information"
                             "Please enter a semester name"])
  else
    let newSemester :=
      {| Semester.id := now;
         Semester.name := trim (SemestersState.newSemesterName st);
         Semester.term :=
           (if String.eqb (trim (SemestersState.newSemesterTerm st)) ""
            then "Term" else trim (SemestersState.newSemesterTerm st));
         Semester.courses := [];
         Semester.scale := SemestersState.selectedScale st |} in
    let updated := SemestersState.semesters st ++ [newSemester] in
    ({| SemestersState.semesters := updated;
        SemestersState.showAddModal := false;
        SemestersState.newSemesterName := "";
        SemestersState.newSemesterTerm := "";
        SemestersState.selectedScale := SemestersState.selectedScale st;
        SemestersState.useWeightedGPA := SemestersState.useWeightedGPA st |},
     [SaveSemesters updated]).

End Handlers.

(** [SemesterDetailScreen]: the list [saveSemester] hands to [setItem],
    from what [getItem] returned ([None] for [null]). *)
Definition SemesterDetailScreen_saveSemester
    (semesterId : string) (updated : Semester.t)
    (stored : option (list Semester.t)) : list Semester.t :=
  let semesters := match stored with Some l => l | None => [] end in
  match Array_findIndex (fun s => String.eqb (Semester.id s) semesterId)
                        semesters with
  | Some index => Array_set index updated semesters
  | None => semesters ++ [updated]
  end.

(** [SemesterDetailScreen]: the semester [loadSemester] finds in what
    [getItem] returned. *)
Definition SemesterDetailScreen_loadSemester
    (semesterId : string) (stored : option (list Semester.t))
  : option Semester.t :=
  match stored with
  | Some semesters =>
      find (fun s => String.eqb (Semester.id s) semesterId) semesters
  | None => None
  end.

(** [SemestersScreen]: the cumulative GPA and the credit total shown
    beside it. *)
Definition SemestersScreen_calculateCumulativeGPA
    (semesters : list Semester.t) (isPremium useWeightedGPA : bool) : number :=
  let allCourses := flat_map Semester.courses semesters in
  if Nat.eqb (List.length allCourses) 0 then Fin 0
  else
    let scale :=
      match nth_error semesters 0 with
      | Some s => Semester.scale s
      | None => US
      end in
    calculateGPA allCourses scale (isPremium && useWeightedGPA)
                 DEFAULT_WEIGHT_MULTIPLIERS.

Definition SemestersScreen_totalCredits (semesters : list Semester.t) : number :=
  fold_left
    (fun sum s =>
       (sum + fold_left (fun cSum c => (cSum + Fin (Course.credits c))%num)
                        (Semester.courses s) (Fin 0))%num)
    semesters (Fin 0).

(** *** [AnalyticsScreen.tsx] *)

Module SemesterDatum.
Record t : Type := mk {
  name : string;
  gpa : number;
  courses : nat;
  credits : number;
  scale : GPAScale
}.
End SemesterDatum.

Definition AnalyticsScreen_semesterData
    (semesters : list Semester.t) : list SemesterDatum.t :=
  map (fun semester =>
         {| SemesterDatum.name := Semester.name semester;
            SemesterDatum.gpa :=
              calculateGPA (Semester.courses semester) (Semester.scale semester)
                           false DEFAULT_WEIGHT_MULTIPLIERS;
            SemesterDatum.courses := List.length (Semester.courses semester);
            SemesterDatum.credits :=
              fold_left (fun sum c => (sum + Fin (Course.credits c))%num)
                        (Semester.courses semester) (Fin 0);
            SemesterDatum.scale := Semester.scale semester |})
      semesters.

Definition AnalyticsScreen_maxGPA (semesters : list Semester.t) : Q :=
  match semesters with
  | first :: _ => ScaleConfig.max (SCALE_CONFIG (Semester.scale first))
  | [] => 4.0
  end.

Definition AnalyticsScreen_avgGPA (semesters : list Semester.t) : number :=
  let semesterData := AnalyticsScreen_semesterData semesters in
  if Nat.ltb 0 (List.length semesterData)
  then (fold_left (fun sum s => (sum + SemesterDatum.gpa s)%num)
                  semesterData (Fin 0)
        / Fin (inject_Z (Z.of_nat (List.length semesterData))))%num
  else Fin 0.

(** *** [useUserStorage.ts] *)

Inductive Provider : Type := apple | google.

Definition Provider_text (p : Provider) : string :=
  match p with apple => "apple" | google => "google" end.

Module User.
Record t : Type := mk {
  id : string;
  email : option string;
  name : option string;
  provider : Provider
}.
End User.

Definition GUEST_USER_ID : string := "guest".

Definition getUserId (user : option User.t) : string :=
  match user with
  | Some u => Provider_text (User.provider u) ++ ":" ++ User.id u
  | None => GUEST_USER_ID
  end.

Definition getStorageKey (user : option User.t) (baseKey : string) : string :=
  let userId := getUserId user in
  baseKey ++ "_" ++ userId.

(** Helpers for the statements below. *)

(** A semester under another scale. *)
Definition withScale (s : GPAScale) (semester : Semester.t) : Semester.t :=
  {| Semester.id := Semester.id semester;
     Semester.name := Semester.name semester;
     Semester.term := Semester.term semester;
     Semester.courses := Semester.courses semester;
     Semester.scale := s |}.

(** The credit options of either scale. *)
Definition isCreditOption (q : Q) : bool :=
  existsb (Qeq_bool q) (US_CREDIT_OPTIONS ++ AU_CREDIT_OPTIONS).

(** What the prediction screen keeps true of its state. *)
Definition PredictionScreen_invariant (st : PredictionState.t) : Prop :=
  Forall (fun c => isCreditOption (PredictionCourse.credits c) = true)
         (PredictionState.courses st)
  /\ In (PredictionState.selectedGrade st)
        (ScaleConfig.grades (SCALE_CONFIG (PredictionState.scale st))).

(** [projectedGPA = calculateProjectedGPA()] on a state. *)
Definition PredictionScreen_projectedGPA
    (parseFloat : string -> number) (st : PredictionState.t) : number :=
  calculateProjectedGPA parseFloat
    (PredictionState.currentGPA st) (PredictionState.currentCredits st)
    (PredictionState.courses st) (PredictionState.scale st).

(** A stand-in for [parseInt] on the texts the examples use. *)
Definition parseInt_sample (text : string) : number :=
  if String.eqb text "3" then Fin 3
  else if String.eqb text "10" then Fin 10
  else NaN.

(** The prediction screen after the user entered a current standing of
    3.0 over 60 credits and added one expected A of 3 credits. *)
Definition PredictionScreen_sample : PredictionState.t :=
  fst (PredictionScreen_handleAddCourse
         parseInt_sample (fun text => text) (fun text => text) false
         "1700000000000"
         (PredictionState.mk US "3.0" "60" [] "Physics II" "A" "3")).


(** A whole number. *)
Definition isWhole (q : Q) : bool :=
  Z.eqb (Qnum q mod Zpos (Qden q)) 0.

(** Every course's credits are among the credit options of a scale:
    positive whole numbers, as the screens admit them. *)
Definition creditsFromOptions (courses : list Course.t) : Prop :=
  Forall (fun c => isCreditOption (Course.credits c) = true) courses.

(* ================================================================= *)
(** ** The same loop in binary64

    [calculateGPA] once more, with the operations of the platform: the
    primitive binary64 floats.  Credits, grade points and multipliers
    are the same rationals, read as the decimal literals they are
    written as: the nearest binary64 value. *)

Definition Z2float (z : Z) : float :=
  match z with
  | Z0 => PrimFloat.zero
  | Zpos p => PrimFloat.of_uint63 (Uint63.of_Z (Zpos p))
  | Zneg p => PrimFloat.opp (PrimFloat.of_uint63 (Uint63.of_Z (Zpos p)))
  end.

(** The binary64 value of a decimal literal with numerator and
    denominator below 2^53: the correctly rounded quotient. *)
Definition Q2float (q : Q) : float :=
  PrimFloat.div (Z2float (Qnum q)) (Z2float (Zpos (Qden q))).

Definition ToNumber_binary64 (v : JSValue) : float :=
  match v with
  | VNumber q => Q2float q
  | VOther => PrimFloat.nan
  end.

Definition calculateGPA_step_binary64
    (config : ScaleConfig.t) (scale : GPAScale) (useWeighting : bool)
    (multipliers : WeightMultipliers.t)
    (acc : float * float) (course : Course.t) : float * float :=
  let '(totalPoints, totalCredits) := acc in
  let baseGradePoint : JSValue :=
    nullish (Record_get (ScaleConfig.points config) (Course.grade course))
            (VNumber 0) in
  let gradePoint : float :=
    match Course.weightType course with
    | Some weightType =>
        if useWeighting && truthy (Course.isWeighted course)
           && GPAScale_eqb scale US
        then match baseGradePoint with
             | VNumber q =>
                 PrimFloat.add (Q2float q)
                   (Q2float (WeightMultipliers_get multipliers weightType))
             | VOther => PrimFloat.nan
             end
        else ToNumber_binary64 baseGradePoint
    | None => ToNumber_binary64 baseGradePoint
    end in
  (PrimFloat.add totalPoints
     (PrimFloat.mul gradePoint (Q2float (Course.credits course))),
   PrimFloat.add totalCredits (Q2float (Course.credits course))).

Definition calculateGPA_binary64
    (courses : list Course.t) (scale : GPAScale) (useWeighting : bool)
    (multipliers : WeightMultipliers.t) : float :=
  if Nat.eqb (List.length courses) 0 then PrimFloat.zero
  else
    let config := SCALE_CONFIG scale in
    let '(totalPoints, totalCredits) :=
      fold_left (calculateGPA_step_binary64 config scale useWeighting multipliers)
                courses (PrimFloat.zero, PrimFloat.zero) in
    if PrimFloat.ltb PrimFloat.zero totalCredits
    then PrimFloat.div totalPoints totalCredits
    else PrimFloat.zero.

(** Inputs for replaying the loop on every short list the screens can
    build: all lists over [options] of length at most [n]. *)
Fixpoint listsUpTo {A : Type} (n : nat) (options : list A) : list (list A) :=
  match n with
  | O => [[]]
  | S n' =>
      [] :: flat_map (fun l => map (fun x => x :: l) options)
                     (listsUpTo n' options)
  end.

(** The grades of a scale whose point is a whole number. *)
Definition wholeGrades (scale : GPAScale) : list string :=
  filter (fun g => isWhole (points scale g))
         (ScaleConfig.grades (SCALE_CONFIG scale)).

(** Every course a screen can add on a scale, a grade outside the table
    included: a grade, a credit option, and a weight type or none. *)
Definition coursesOnOffer (scale : GPAScale) : list Course.t :=
  flat_map
    (fun g =>
       flat_map
         (fun c =>
            course g c
            :: map (weighted g c) [AP; Honours; Standard])
         (ScaleConfig.creditOptions (SCALE_CONFIG scale)))
    (ScaleConfig.grades (SCALE_CONFIG scale) ++ ["A"; "X"]%string).

(** [0 <= x <= hi] in binary64. *)
Definition binary64_within (hi : Q) (x : float) : bool :=
  PrimFloat.leb PrimFloat.zero x && PrimFloat.leb x (Q2float hi).
(* ================================================================= *)
(** ** Facts about numbers *)

Lemma Qltb_lt (a b : Q) : Qltb a b = true <-> a < b.
Proof.
  unfold Qltb. rewrite negb_true_iff, <- not_true_iff_false, Qle_bool_iff.
  split; [apply Qnot_le_lt | apply Qlt_not_le].
Qed.

Lemma Qltb_ge (a b : Q) : Qltb a b = false <-> b <= a.
Proof.
  unfold Qltb. rewrite negb_false_iff. apply Qle_bool_iff.
Qed.

#[export] Instance Qltb_comp : Proper (Qeq ==> Qeq ==> eq) Qltb.
Proof.
  intros a a' Ha b b' Hb. unfold Qltb. now rewrite Ha, Hb.
Qed.

Lemma Qeq_bool_false (a b : Q) : Qeq_bool a b = false <-> ~ a == b.
Proof.
  rewrite <- not_true_iff_false, Qeq_bool_iff. tauto.
Qed.

#[export] Instance num_eq_Equivalence : Equivalence num_eq.
Proof.
  split.
  - intros [q| |s]; simpl; auto with qarith.
  - intros [q| |s] [q'| |s']; simpl; auto with qarith.
  - intros [q| |s] [q'| |s'] [q''| |s'']; simpl; try tauto.
    + apply Qeq_trans.
    + congruence.
Qed.

#[export] Instance Fin_comp : Proper (Qeq ==> num_eq) Fin.
Proof. intros a b H. exact H. Qed.

(** Case analysis shared by the compatibility proofs below. *)
Ltac num_cases :=
  intros [?a| |?s] [?a'| |?s'] Ha [?b| |?t] [?b'| |?t'] Hb; simpl in *;
  try tauto; subst; try reflexivity;
  repeat rewrite Ha; repeat rewrite Hb; try reflexivity.

#[export] Instance num_add_comp : Proper (num_eq ==> num_eq ==> num_eq) num_add.
Proof. num_cases. Qed.

#[export] Instance num_mul_comp : Proper (num_eq ==> num_eq ==> num_eq) num_mul.
Proof. num_cases. Qed.

#[export] Instance num_div_comp : Proper (num_eq ==> num_eq ==> num_eq) num_div.
Proof.
  num_cases.
  destruct (Qeq_bool b' 0); [destruct (Qeq_bool a' 0)|]; simpl;
    try reflexivity.
  now rewrite Ha, Hb.
Qed.

#[export] Instance num_gt_comp : Proper (num_eq ==> num_eq ==> eq) num_gt.
Proof. num_cases. Qed.

Lemma num_gt_Fin (a b : Q) : (Fin a >? Fin b)%num = Qltb b a.
Proof. reflexivity. Qed.

Lemma num_div_Fin (a b : Q) : ~ b == 0 -> (Fin a / Fin b)%num = Fin (a / b).
Proof.
  intros H. simpl. apply Qeq_bool_false in H. now rewrite H.
Qed.

(* ================================================================= *)
(** ** Reading a table *)

(** The three outcomes of [table[key]]: an own entry, an inherited
    member, or [undefined]. *)
Lemma Record_get_cases (table : Record_string_number) (key : string) :
  (exists v, Record_own table key = Some v
             /\ Record_get table key = Some (VNumber v))
  \/ (Record_own table key = None /\ Record_get table key = Some VOther)
  \/ (Record_own table key = None /\ Record_get table key = None).
Proof.
  unfold Record_get.
  destruct (Record_own table key) as [v|].
  - left. now exists v.
  - destruct (existsb _ _); auto.
Qed.

Lemma inheritedGrade_false (scale : GPAScale) (g : string) :
  inheritedGrade scale g = false ->
  nullish (Record_get (ScaleConfig.points (SCALE_CONFIG scale)) g) (VNumber 0)
  = VNumber (points scale g).
Proof.
  unfold inheritedGrade, points, nullish.
  destruct (Record_get_cases (ScaleConfig.points (SCALE_CONFIG scale)) g)
    as [(v & -> & ->) | [[-> ->] | [-> ->]]];
    [reflexivity | discriminate | reflexivity].
Qed.

Lemma inheritedGrade_true (scale : GPAScale) (g : string) :
  inheritedGrade scale g = true ->
  nullish (Record_get (ScaleConfig.points (SCALE_CONFIG scale)) g) (VNumber 0)
  = VOther.
Proof.
  unfold inheritedGrade, nullish.
  destruct (Record_get _ g) as [[v|]|]; [discriminate | reflexivity | discriminate].
Qed.

(** A grade the lookup leaves undefined is neither in the table nor the
    name of an inherited member. *)
Lemma Record_get_None (scale : GPAScale) (g : string) :
  Record_get (ScaleConfig.points (SCALE_CONFIG scale)) g = None ->
  points scale g = 0 /\ inheritedGrade scale g = false.
Proof.
  intros H. unfold points, inheritedGrade. rewrite H.
  destruct (Record_get_cases (ScaleConfig.points (SCALE_CONFIG scale)) g)
    as [(v & _ & E) | [[_ E] | [-> _]]];
    [rewrite H in E; discriminate | rewrite H in E; discriminate | now split].
Qed.

(* ================================================================= *)
(** ** The loop of [calculateGPA] *)

Section Loop.

Variables (scale : GPAScale) (useWeighting : bool)
          (multipliers : WeightMultipliers.t).

Let step :=
  calculateGPA_step (SCALE_CONFIG scale) scale useWeighting multipliers.

(** One iteration from a finite state, on a grade that reads as a
    number: the state stays finite and grows by the effective point
    times the credits, and by the credits. *)
Lemma calculateGPA_step_Fin (p t : Q) (c : Course.t) :
  inheritedGrade scale (Course.grade c) = false ->
  exists gp : Q,
    step (Fin p, Fin t) c
    = (Fin (p + gp * Course.credits c), Fin (t + Course.credits c))
    /\ gp == effectivePoint scale useWeighting multipliers c.
Proof.
  intros Hown.
  unfold step, calculateGPA_step, effectivePoint, weightBonus, weightingApplies.
  rewrite (inheritedGrade_false _ _ Hown).
  destruct (Course.weightType c) as [w|].
  - destruct useWeighting, (Course.isWeighted c) as [[|]|], scale; simpl;
      eexists; (split; [reflexivity|]); ring.
  - eexists; split; [reflexivity|]. ring.
Qed.

(** One iteration on a grade that names an inherited member: the point
    total becomes [NaN], the credits are added as ever. *)
Lemma calculateGPA_step_inherited (x : number) (t : Q) (c : Course.t) :
  inheritedGrade scale (Course.grade c) = true ->
  step (x, Fin t) c = (NaN, Fin (t + Course.credits c)).
Proof.
  intros Hinh. unfold step, calculateGPA_step.
  rewrite (inheritedGrade_true _ _ Hinh).
  destruct (Course.weightType c) as [w|];
    [destruct (useWeighting && truthy (Course.isWeighted c)
               && GPAScale_eqb scale US)|];
    destruct x as [q| |s]; reflexivity.
Qed.

(** Once [NaN], the point total stays [NaN]. *)
Lemma calculateGPA_step_NaN (t : Q) (c : Course.t) :
  step (NaN, Fin t) c = (NaN, Fin (t + Course.credits c)).
Proof.
  unfold step, calculateGPA_step. reflexivity.
Qed.

Lemma fold_step_NaN (courses : list Course.t) :
  forall t : Q,
  exists t' : Q,
    fold_left step courses (NaN, Fin t) = (NaN, Fin t')
    /\ t' == t + sumCredits courses.
Proof.
  unfold sumCredits, sumOver.
  induction courses as [|c courses IH]; intros t; cbn [fold_left fold_right].
  - exists t. split; [reflexivity | ring].
  - rewrite calculateGPA_step_NaN.
    destruct (IH (t + Course.credits c)) as (t' & -> & Ht').
    exists t'. split; [reflexivity|]. rewrite Ht'. ring.
Qed.

Lemma fold_step_Fin (courses : list Course.t) :
  forall p t : Q,
  exists p' t' : Q,
    fold_left step courses (Fin p, Fin t)
    = (if anyInherited scale courses then NaN else Fin p', Fin t')
    /\ p' == p + sumPoints scale useWeighting multipliers courses
    /\ t' == t + sumCredits courses.
Proof.
  induction courses as [|c courses IH]; intros p t.
  - exists p, t. unfold sumPoints, sumCredits. simpl.
    repeat split; ring.
  - cbn [fold_left anyInherited existsb].
    destruct (inheritedGrade scale (Course.grade c)) eqn:Hc.
    + rewrite (calculateGPA_step_inherited _ _ _ Hc).
      destruct (fold_step_NaN courses (t + Course.credits c)) as (t' & -> & Ht').
      exists (p + sumPoints scale useWeighting multipliers (c :: courses)), t'.
      split; [reflexivity|]. split; [reflexivity|].
      rewrite Ht'. unfold sumCredits, sumOver. cbn [fold_right]. ring.
    + destruct (calculateGPA_step_Fin p t c Hc) as (gp & Hstep & Hgp).
      destruct (IH (p + gp * Course.credits c) (t + Course.credits c))
        as (p' & t' & Hfold & Hp & Ht).
      exists p', t'. rewrite Hstep, Hfold.
      unfold sumPoints, sumCredits, sumOver in *. cbn [fold_right orb].
      repeat split; [rewrite Hp, Hgp | rewrite Ht]; ring.
Qed.

(** The loop ends with the credit total finite and equal to the sum of
    the credits, and with the point total equal to the sum of the
    products, or [NaN] when some grade named an inherited member. *)
Lemma calculateGPA_totals_sums (courses : list Course.t) :
  exists p t : Q,
    calculateGPA_totals courses scale useWeighting multipliers
    = (if anyInherited scale courses then NaN else Fin p, Fin t)
    /\ p == sumPoints scale useWeighting multipliers courses
    /\ t == sumCredits courses.
Proof.
  destruct (fold_step_Fin courses 0 0) as (p & t & H & Hp & Ht).
  exists p, t. repeat split; [exact H | rewrite Hp | rewrite Ht]; ring.
Qed.

(** [calculateGPA] in closed form: the ratio of the sums behind the
    guard on the credit total. *)
Lemma calculateGPA_closed (courses : list Course.t) :
  calculateGPA courses scale useWeighting multipliers
  =n= if Qltb 0 (sumCredits courses)
      then if anyInherited scale courses
           then NaN
           else Fin (sumPoints scale useWeighting multipliers courses
                     / sumCredits courses)
      else Fin 0.
Proof.
  unfold calculateGPA.
  destruct courses as [|c courses].
  - reflexivity.
  - cbn [List.length Nat.eqb].
    destruct (calculateGPA_totals_sums (c :: courses))
      as (p & t & H & Hp & Ht).
    rewrite H, num_gt_Fin, <- Ht.
    destruct (Qltb 0 t) eqn:Hpos; [|reflexivity].
    destruct (anyInherited scale (c :: courses)); [reflexivity|].
    apply Qltb_lt in Hpos.
    rewrite num_div_Fin by (intros E; rewrite E in Hpos; discriminate).
    now rewrite Hp, Ht.
Qed.

(** Without a grade that names an inherited member, the result is a
    finite number. *)
Lemma calculateGPA_finite (courses : list Course.t) :
  anyInherited scale courses = false ->
  exists q : Q, calculateGPA courses scale useWeighting multipliers = Fin q.
Proof.
  intros Hown. unfold calculateGPA.
  destruct courses as [|c courses]; [now exists 0|].
  cbn [List.length Nat.eqb].
  destruct (calculateGPA_totals_sums (c :: courses)) as (p & t & H & _ & _).
  rewrite H, Hown, num_gt_Fin.
  destruct (Qltb 0 t) eqn:Hpos; [|now exists 0].
  apply Qltb_lt in Hpos.
  rewrite num_div_Fin by (intros E; rewrite E in Hpos; discriminate).
  now eexists.
Qed.

End Loop.

(* ================================================================= *)
(** ** The credit-weighted mean *)

(** X24.  For every course list whose credits sum to a positive value
    and none of whose grades names an inherited member,
    [calculateGPA courses scale useWeighting multipliers] is the sum over
    the courses of effective point times credits, divided by the sum of
    the credits; the effective point is the scale's table entry for the
    grade (0 when the grade has none) plus [multipliers[weightType]]
    exactly when [useWeighting] is true, the course's [isWeighted] is
    true, it has a [weightType] and the scale is US.  In particular an A
    and a B of three credits each average to 3.5 on the US scale. *)
Theorem calculateGPA_weighted_mean :
  (forall courses scale useWeighting multipliers,
      0 < sumCredits courses ->
      anyInherited scale courses = false ->
      calculateGPA courses scale useWeighting multipliers
      =n= Fin (sumPoints scale useWeighting multipliers courses
               / sumCredits courses))
  /\ calculateGPA [course "A" 3; course "B" 3] US false
                  DEFAULT_WEIGHT_MULTIPLIERS
     =n= Fin 3.5
  /\ calculateGPA_binary64 [course "A" 3; course "B" 3] US false
                           DEFAULT_WEIGHT_MULTIPLIERS
     = 3.5%float.
Proof.
  split; [|split].
  - intros courses scale useWeighting multipliers Hpos Hown.
    rewrite calculateGPA_closed, Hown.
    apply Qltb_lt in Hpos. now rewrite Hpos.
  - vm_compute. reflexivity.
  - vm_compute. reflexivity.
Qed.

Lemma calculateGPA_weighted_mean_witness :
  let courses := [weighted "A-" 4 AP; weighted "B" 3 Honours; course "Q" 2] in
  0 < sumCredits courses
  /\ anyInherited US courses = false
  /\ calculateGPA courses US true DEFAULT_WEIGHT_MULTIPLIERS
     =n= Fin (sumPoints US true DEFAULT_WEIGHT_MULTIPLIERS courses
              / sumCredits courses).
Proof.
  split; [reflexivity|]. split; [reflexivity|].
  apply (proj1 calculateGPA_weighted_mean); reflexivity.
Defined.

(** C1.  [calculateGPA] is to return the sum of effective point times
    credits divided by the sum of the credits, a grade absent from the
    table counting 0.  The grade ["constructor"] is absent from the US
    table, and one course of 3 credits with that grade has a positive
    credit total, so that the quotient is 0.  The code returns [NaN]:
    [config.points[course.grade]] finds the member of that name which
    every object inherits, [??] keeps it, being neither [null] nor
    [undefined], and its product with the credits is [NaN]. *)
Theorem calculateGPA_inherited_grade :
  let courses := [course "constructor" 3] in
  0 < sumCredits courses
  /\ Record_own (ScaleConfig.points (SCALE_CONFIG US)) "constructor" = None
  /\ sumPoints US false DEFAULT_WEIGHT_MULTIPLIERS courses
     / sumCredits courses == 0
  /\ calculateGPA courses US false DEFAULT_WEIGHT_MULTIPLIERS = NaN
  /\ PrimFloat.is_nan
       (calculateGPA_binary64 courses US false DEFAULT_WEIGHT_MULTIPLIERS)
     = true.
Proof.
  cbv zeta. repeat split; vm_compute; reflexivity.
Qed.

(* ================================================================= *)
(** ** Cumulative aggregation *)

(** C2.  [calculateCumulativeGPA semesters useWeighting multipliers] is
    [calculateGPA] on the concatenation of the semesters' course lists,
    in order, under the scale of the first semester and with the same
    [useWeighting] and [multipliers]; on the empty list of semesters it
    is 0, the function returning before any scale is looked at. *)
Theorem calculateCumulativeGPA_flatten :
  forall semesters useWeighting multipliers,
    calculateCumulativeGPA semesters useWeighting multipliers
    = match semesters with
      | [] => Fin 0
      | first :: _ =>
          calculateGPA (List.concat (map Semester.courses semesters))
                       (Semester.scale first) useWeighting multipliers
      end.
Proof.
  intros semesters useWeighting multipliers.
  unfold calculateCumulativeGPA.
  rewrite flat_map_concat_map.
  destruct semesters as [|first rest]; [reflexivity|].
  cbn [nth_error].
  destruct (List.concat (map Semester.courses (first :: rest))) as [|c cs] eqn:E;
    reflexivity.
Qed.

(* ================================================================= *)
(** ** Guards against division by zero *)

(** C6.  On the empty course list [calculateGPA] returns exactly 0 for
    every scale; on a non-empty list whose credits sum to zero it
    returns 0 as well, neither [NaN] nor an infinity. *)
Theorem calculateGPA_zero_guard :
  (forall scale useWeighting multipliers,
      calculateGPA [] scale useWeighting multipliers = Fin 0)
  /\ (forall courses scale useWeighting multipliers,
         courses <> [] ->
         sumCredits courses == 0 ->
         calculateGPA courses scale useWeighting multipliers = Fin 0).
Proof.
  split; [reflexivity|].
  intros courses scale useWeighting multipliers _ Hzero.
  unfold calculateGPA.
  destruct (Nat.eqb (List.length courses) 0); [reflexivity|].
  destruct (calculateGPA_totals_sums scale useWeighting multipliers courses)
    as (p & t & H & _ & Ht).
  rewrite H, num_gt_Fin, Ht, Hzero. reflexivity.
Qed.

Lemma calculateGPA_zero_guard_witness :
  let courses := [course "A" 0; course "B+" 0] in
  courses <> [] /\ sumCredits courses == 0
  /\ calculateGPA courses US false DEFAULT_WEIGHT_MULTIPLIERS = Fin 0.
Proof.
  split; [discriminate|]. split; [reflexivity|].
  apply (proj2 calculateGPA_zero_guard); [discriminate | reflexivity].
Defined.

(* ================================================================= *)
(** ** The multipliers are ignored without weighting *)

Lemma calculateGPA_step_unweighted config scale m1 m2 acc c :
  calculateGPA_step config scale false m1 acc c
  = calculateGPA_step config scale false m2 acc c.
Proof.
  unfold calculateGPA_step. destruct acc, (Course.weightType c); reflexivity.
Qed.

Lemma fold_left_ext_all {A B : Type} (f g : A -> B -> A) :
  (forall a b, f a b = g a b) ->
  forall l a, fold_left f l a = fold_left g l a.
Proof.
  intros Hfg l. induction l as [|b l IH]; intros a; simpl.
  - reflexivity.
  - now rewrite Hfg, IH.
Qed.

(** C10.  With [useWeighting] false the multipliers have no influence:
    for every course list and scale and any two multiplier tables,
    [calculateGPA] returns the same value. *)
Theorem calculateGPA_unweighted_ignores_multipliers :
  forall courses scale m1 m2,
    calculateGPA courses scale false m1 = calculateGPA courses scale false m2.
Proof.
  intros courses scale m1 m2. unfold calculateGPA, calculateGPA_totals.
  now rewrite (fold_left_ext_all _ _
                 (calculateGPA_step_unweighted (SCALE_CONFIG scale) scale m1 m2)).
Qed.

(* ================================================================= *)
(** ** Range of the unweighted result *)

Lemma Record_own_Forall (P : Q -> Prop) (table : Record_string_number) :
  Forall (fun kv => P (snd kv)) table ->
  forall key v, Record_own table key = Some v -> P v.
Proof.
  induction 1 as [|[k v0] rest Hhead _ IH]; intros key v; simpl.
  - discriminate.
  - destruct (String.eqb k key).
    + intros [= <-]. exact Hhead.
    + apply IH.
Qed.

(** Every entry of a scale's table lies between 0 and the scale's
    unweighted maximum, and so does [points], which is 0 off the table. *)
Lemma points_range (scale : GPAScale) (g : string) :
  0 <= points scale g /\ points scale g <= ScaleConfig.max (SCALE_CONFIG scale).
Proof.
  unfold points.
  destruct (Record_own _ g) as [v|] eqn:E.
  - revert g v E. apply Record_own_Forall.
    destruct scale; cbn; repeat constructor; cbn; lra.
  - destruct scale; cbn; lra.
Qed.

Lemma effectivePoint_unweighted scale multipliers c :
  effectivePoint scale false multipliers c == points scale (Course.grade c).
Proof.
  unfold effectivePoint, weightBonus, weightingApplies.
  destruct (Course.weightType c); ring.
Qed.

Lemma sumPoints_unweighted_range scale multipliers courses :
  Forall (fun c => 0 < Course.credits c) courses ->
  0 <= sumCredits courses
  /\ 0 <= sumPoints scale false multipliers courses
  /\ sumPoints scale false multipliers courses
     <= ScaleConfig.max (SCALE_CONFIG scale) * sumCredits courses.
Proof.
  unfold sumPoints, sumCredits, sumOver.
  induction 1 as [|c courses Hc _ (IHc & IHlo & IHhi)]; cbn [fold_right].
  - repeat split; lra.
  - rewrite effectivePoint_unweighted.
    destruct (points_range scale (Course.grade c)) as [Hlo Hhi].
    repeat split; nra.
Qed.

#[export] Instance num_within_comp (lo hi : Q) :
  Proper (num_eq ==> iff) (num_within lo hi).
Proof.
  intros [a| |s] [b| |t] H; simpl in *; try tauto.
  now rewrite H.
Qed.

(** A credit option is a positive number. *)
Lemma isCreditOption_pos (q : Q) : isCreditOption q = true -> 0 < q.
Proof.
  unfold isCreditOption. rewrite existsb_exists.
  intros (o & Hin & Heq). apply Qeq_bool_iff in Heq.
  cbn in Hin.
  repeat (destruct Hin as [<- | Hin]; [rewrite Heq; reflexivity|]).
  contradiction.
Qed.

Lemma creditsFromOptions_pos (courses : list Course.t) :
  creditsFromOptions courses ->
  Forall (fun c => 0 < Course.credits c) courses.
Proof.
  apply Forall_impl. intros c. apply isCreditOption_pos.
Qed.

Lemma sumCredits_pos (courses : list Course.t) :
  courses <> [] ->
  Forall (fun c => 0 < Course.credits c) courses ->
  0 < sumCredits courses.
Proof.
  unfold sumCredits, sumOver.
  intros Hne H. induction H as [|c courses Hc Hrest IH]; [contradiction|].
  cbn [fold_right].
  destruct courses as [|c' courses]; cbn [fold_right] in *; [lra|].
  assert (0 < Course.credits c' + fold_right (fun c0 acc => Course.credits c0 + acc) 0 courses)
    by (apply IH; discriminate).
  lra.
Qed.

(** The unweighted result over positive credits, with every grade read
    as a number, lies within the scale. *)
Lemma calculateGPA_unweighted_within scale courses multipliers :
  Forall (fun c => 0 < Course.credits c) courses ->
  anyInherited scale courses = false ->
  num_within 0 (ScaleConfig.max (SCALE_CONFIG scale))
             (calculateGPA courses scale false multipliers).
Proof.
  intros Hpos Hown.
  rewrite calculateGPA_closed, Hown.
  destruct (sumPoints_unweighted_range scale multipliers courses Hpos)
    as (_ & Hlo & Hhi).
  destruct (Qltb 0 (sumCredits courses)) eqn:Hc; simpl.
  - apply Qltb_lt in Hc. split.
    + apply Qle_shift_div_l; [exact Hc | lra].
    + apply Qle_shift_div_r; [exact Hc | exact Hhi].
  - destruct scale; cbn; lra.
Qed.

(** C9, as the code has it.  For every scale and every course list whose
    courses all have one of the credit options for credits (positive
    whole numbers) and a grade that does not name an inherited member,
    the unweighted result of [calculateGPA] lies between 0 and the
    scale's unweighted maximum (4.0 for US, 7.0 for AU), both included:
    every table entry lies in that range and a grade without entry
    counts 0.  With whole credits the credit total and the products by
    the maximum are computed without rounding, and rounding, which keeps
    the order, cannot carry the quotient past the maximum. *)
Theorem calculateGPA_unweighted_range :
  forall scale courses multipliers,
    creditsFromOptions courses ->
    anyInherited scale courses = false ->
    num_within 0 (ScaleConfig.max (SCALE_CONFIG scale))
               (calculateGPA courses scale false multipliers)
    /\ ScaleConfig.max (SCALE_CONFIG scale)
       = match scale with US => 4.0 | AU => 7.0 end.
Proof.
  intros scale courses multipliers Hopt Hown.
  split; [|now destruct scale].
  apply calculateGPA_unweighted_within; [|exact Hown].
  now apply creditsFromOptions_pos.
Qed.

Lemma calculateGPA_unweighted_range_witness :
  let courses := [weighted "HD" 10 AP; course "P" 20; course "X" 10] in
  creditsFromOptions courses
  /\ anyInherited AU courses = false
  /\ num_within 0 7.0 (calculateGPA courses AU false DEFAULT_WEIGHT_MULTIPLIERS).
Proof.
  assert (H : creditsFromOptions
                [weighted "HD" 10 AP; course "P" 20; course "X" 10])
    by (repeat constructor).
  split; [exact H|]. split; [reflexivity|].
  exact (proj1 (calculateGPA_unweighted_range AU _ DEFAULT_WEIGHT_MULTIPLIERS
                  H eq_refl)).
Defined.

(** C9 as stated fails in binary64 on credits that are positive but not
    whole: two HD courses of 0.1 and 0.5 credits on the AU scale give
    [7 * 0.1 + 7 * 0.5], which rounds to 4.2, over [0.1 + 0.5], which
    rounds to 0.6, and the quotient is 7.000000000000001, above the
    maximum 7.0. *)
Lemma calculateGPA_unweighted_range_counterexample :
  let courses := [course "HD" 0.1; course "HD" 0.5] in
  let result :=
    calculateGPA_binary64 courses AU false DEFAULT_WEIGHT_MULTIPLIERS in
  Forall (fun c => 0 < Course.credits c) courses
  /\ result = 7.0000000000000009%float
  /\ PrimFloat.ltb (Q2float (ScaleConfig.max (SCALE_CONFIG AU))) result = true
  /\ PrimFloat.leb result (Q2float (ScaleConfig.max (SCALE_CONFIG AU))) = false.
Proof.
  cbv zeta. split; [repeat constructor|].
  repeat split; vm_compute; reflexivity.
Qed.

(* ================================================================= *)
(** ** Lists of equal grades *)

Lemma sumOver_ext {A : Type} (f g : A -> Q) (l : list A) :
  Forall (fun x => f x == g x) l -> sumOver f l == sumOver g l.
Proof.
  unfold sumOver.
  induction 1 as [|x l Hx _ IH]; cbn [fold_right].
  - reflexivity.
  - now rewrite Hx, IH.
Qed.

Lemma sumOver_scale {A : Type} (k : Q) (f : A -> Q) (l : list A) :
  sumOver (fun x => k * f x) l == k * sumOver f l.
Proof.
  unfold sumOver. induction l as [|x l IH]; cbn [fold_right].
  - ring.
  - rewrite IH. ring.
Qed.

Lemma anyInherited_uniform scale g courses :
  Forall (fun c => Course.grade c = g) courses ->
  inheritedGrade scale g = false ->
  anyInherited scale courses = false.
Proof.
  intros Hgrade Hown. unfold anyInherited.
  induction Hgrade as [|c courses Hc _ IH]; cbn [existsb]; [reflexivity|].
  now rewrite Hc, Hown, IH.
Qed.

(** C8, as the code has it.  For every non-empty course list in which
    every course has the same grade [g], the point of [g] on the scale
    [s] is a whole number (as for every AU grade, for A, B, C, D and F on
    the US scale, and for a grade without entry, which counts 0), [g]
    does not name an inherited member, and the credits are credit
    options (positive whole numbers), the unweighted
    [calculateGPA courses s] equals [points s g], whatever the
    individual credits: the products and sums are then whole numbers,
    which binary64 holds exactly. *)
Theorem calculateGPA_uniform_grade :
  forall courses scale g multipliers,
    courses <> [] ->
    Forall (fun c => Course.grade c = g) courses ->
    creditsFromOptions courses ->
    inheritedGrade scale g = false ->
    isWhole (points scale g) = true ->
    calculateGPA courses scale false multipliers =n= Fin (points scale g).
Proof.
  intros courses scale g multipliers Hne Hgrade Hopt Hown _.
  rewrite calculateGPA_closed, (anyInherited_uniform _ _ _ Hgrade Hown).
  assert (Hsum : sumPoints scale false multipliers courses
                 == points scale g * sumCredits courses).
  { unfold sumPoints, sumCredits. rewrite <- sumOver_scale.
    apply sumOver_ext. apply Forall_impl with (2 := Hgrade).
    intros c <-. now rewrite effectivePoint_unweighted. }
  pose proof (sumCredits_pos _ Hne (creditsFromOptions_pos _ Hopt)) as Hpos.
  pose proof Hpos as Hb. apply Qltb_lt in Hb. rewrite Hb.
  simpl. rewrite Hsum. field. intros E. rewrite E in Hpos. discriminate.
Qed.

Lemma calculateGPA_uniform_grade_witness :
  let courses := [course "B" 3; course "B" 4; course "B" 1] in
  courses <> []
  /\ Forall (fun c => Course.grade c = "B"%string) courses
  /\ creditsFromOptions courses
  /\ inheritedGrade US "B" = false
  /\ isWhole (points US "B") = true
  /\ calculateGPA courses US false DEFAULT_WEIGHT_MULTIPLIERS
     =n= Fin (points US "B")
  /\ calculateGPA_binary64 courses US false DEFAULT_WEIGHT_MULTIPLIERS
     = Q2float (points US "B").
Proof.
  assert (Hne : [course "B" 3; course "B" 4; course "B" 1] <> [])
    by discriminate.
  assert (H : Forall (fun c => Course.grade c = "B"%string)
                [course "B" 3; course "B" 4; course "B" 1])
    by (repeat constructor).
  assert (Hopt : creditsFromOptions
                   [course "B" 3; course "B" 4; course "B" 1])
    by (repeat constructor).
  split; [exact Hne|]. split; [exact H|]. split; [exact Hopt|].
  split; [reflexivity|]. split; [reflexivity|].
  split; [|vm_compute; reflexivity].
  exact (calculateGPA_uniform_grade _ US "B" DEFAULT_WEIGHT_MULTIPLIERS
           Hne H Hopt eq_refl eq_refl).
Defined.

(** C8 as stated fails in three ways.  On a non-empty list whose credits
    sum to zero the guard returns 0: a single A of zero credits yields
    0, not the 4.0 of an A.  On a grade whose point is not a whole
    number rounding shows: three A- courses of 1, 1 and 4 credits yield
    3.7000000000000006 in binary64, not 3.7.  So it does on credits
    that are not whole: two HD courses of 0.1 and 0.5 credits yield
    7.000000000000001, not 7. *)
Lemma calculateGPA_uniform_grade_counterexample :
  (let courses := [course "A" 0] in
   courses <> []
   /\ Forall (fun c => Course.grade c = "A"%string) courses
   /\ calculateGPA courses US false DEFAULT_WEIGHT_MULTIPLIERS = Fin 0
   /\ calculateGPA_binary64 courses US false DEFAULT_WEIGHT_MULTIPLIERS
      = 0%float
   /\ ~ (calculateGPA courses US false DEFAULT_WEIGHT_MULTIPLIERS
         =n= Fin (points US "A")))
  /\ (let courses := [course "A-" 1; course "A-" 1; course "A-" 4] in
      let result :=
        calculateGPA_binary64 courses US false DEFAULT_WEIGHT_MULTIPLIERS in
      courses <> []
      /\ Forall (fun c => Course.grade c = "A-"%string) courses
      /\ result = 3.7000000000000006%float
      /\ Q2float (points US "A-") = 3.7%float
      /\ PrimFloat.eqb result (Q2float (points US "A-")) = false)
  /\ (let courses := [course "HD" 0.1; course "HD" 0.5] in
      let result :=
        calculateGPA_binary64 courses AU false DEFAULT_WEIGHT_MULTIPLIERS in
      courses <> []
      /\ Forall (fun c => Course.grade c = "HD"%string) courses
      /\ result = 7.0000000000000009%float
      /\ Q2float (points AU "HD") = 7%float
      /\ PrimFloat.eqb result (Q2float (points AU "HD")) = false).
Proof.
  cbv zeta. split; [|split].
  - split; [discriminate|]. split; [repeat constructor|].
    split; [reflexivity|]. split; [vm_compute; reflexivity|].
    vm_compute. discriminate.
  - split; [discriminate|]. split; [repeat constructor|].
    repeat split; vm_compute; reflexivity.
  - split; [discriminate|]. split; [repeat constructor|].
    repeat split; vm_compute; reflexivity.
Qed.

(* ================================================================= *)
(** ** When weighting makes no difference *)

Lemma liftedByWeighting_false_bonus scale useWeighting multipliers c :
  WeightMultipliers.Standard multipliers == 0 ->
  liftedByWeighting c = false ->
  weightBonus scale useWeighting multipliers c == 0.
Proof.
  unfold liftedByWeighting, weightBonus, weightingApplies, hasWeightType, truthy.
  intros Hstd.
  destruct useWeighting, (Course.isWeighted c) as [[|]|],
    (Course.weightType c) as [[| |]|], scale; simpl;
    intros H; try discriminate H; try reflexivity; exact Hstd.
Qed.

Lemma weightBonus_AU useWeighting multipliers c :
  weightBonus AU useWeighting multipliers c = 0.
Proof.
  unfold weightBonus, weightingApplies.
  destruct (Course.weightType c), useWeighting,
    (Course.isWeighted c) as [[|]|]; reflexivity.
Qed.

Lemma calculateGPA_same_bonus scale w1 w2 multipliers courses :
  Forall (fun c => weightBonus scale w1 multipliers c
                   == weightBonus scale w2 multipliers c) courses ->
  calculateGPA courses scale w1 multipliers
  =n= calculateGPA courses scale w2 multipliers.
Proof.
  intros H. rewrite !calculateGPA_closed.
  assert (Hsum : sumPoints scale w1 multipliers courses
                 == sumPoints scale w2 multipliers courses).
  { apply sumOver_ext. apply Forall_impl with (2 := H).
    intros c Hc. unfold effectivePoint. now rewrite Hc. }
  destruct (Qltb 0 (sumCredits courses)); [|reflexivity].
  destruct (anyInherited scale courses); [reflexivity|].
  now rewrite Hsum.
Qed.

(** C4.  Weighting changes the result of [calculateGPA] only through
    US-scale courses with [isWeighted] true and a weight type other than
    ["Standard"].  On the AU scale [calculateGPA] returns the same value
    with [useWeighting] true as with it false, for every course list and
    every multiplier table.  On any scale it does so for every course
    list holding no course with [isWeighted] true and a weight type
    other than ["Standard"]: under the default multipliers, which every
    call of the program uses, and more generally under every table that
    gives ["Standard"] the bonus 0. *)
Theorem calculateGPA_weighting_noop :
  (forall courses multipliers,
      calculateGPA courses AU true multipliers
      =n= calculateGPA courses AU false multipliers)
  /\ (forall courses scale,
         Forall (fun c => liftedByWeighting c = false) courses ->
         calculateGPA courses scale true DEFAULT_WEIGHT_MULTIPLIERS
         =n= calculateGPA courses scale false DEFAULT_WEIGHT_MULTIPLIERS)
  /\ (forall courses scale multipliers,
         WeightMultipliers.Standard multipliers == 0 ->
         Forall (fun c => liftedByWeighting c = false) courses ->
         calculateGPA courses scale true multipliers
         =n= calculateGPA courses scale false multipliers).
Proof.
  assert (Hgen : forall courses scale multipliers,
             WeightMultipliers.Standard multipliers == 0 ->
             Forall (fun c => liftedByWeighting c = false) courses ->
             calculateGPA courses scale true multipliers
             =n= calculateGPA courses scale false multipliers).
  { intros courses scale multipliers Hstd Hnone.
    apply calculateGPA_same_bonus.
    apply Forall_impl with (2 := Hnone). intros c Hc.
    now rewrite !liftedByWeighting_false_bonus. }
  split; [|split].
  - intros courses multipliers. apply calculateGPA_same_bonus.
    apply Forall_forall. intros c _. now rewrite !weightBonus_AU.
  - intros courses scale Hnone. apply Hgen; [reflexivity | exact Hnone].
  - exact Hgen.
Qed.

Lemma calculateGPA_weighting_noop_witness :
  let courses :=
    [ weighted "A" 3 Standard; course "B-" 4;
      Course.mk "" "" "C+" 2 (Some false) (Some AP);
      Course.mk "" "" "A-" 3 None (Some Honours) ] in
  Forall (fun c => liftedByWeighting c = false) courses
  /\ calculateGPA courses US true DEFAULT_WEIGHT_MULTIPLIERS
     =n= calculateGPA courses US false DEFAULT_WEIGHT_MULTIPLIERS.
Proof.
  assert (H : Forall (fun c => liftedByWeighting c = false)
                [ weighted "A" 3 Standard; course "B-" 4;
                  Course.mk "" "" "C+" 2 (Some false) (Some AP);
                  Course.mk "" "" "A-" 3 None (Some Honours) ])
    by (repeat constructor).
  split; [exact H|].
  exact (proj1 (proj2 calculateGPA_weighting_noop) _ US H).
Defined.

(* ================================================================= *)
(** ** Grades outside the table *)

Lemma calculateGPA_totals_snoc scale useWeighting multipliers before c :
  calculateGPA_totals (before ++ [c]) scale useWeighting multipliers
  = calculateGPA_step (SCALE_CONFIG scale) scale useWeighting multipliers
      (calculateGPA_totals before scale useWeighting multipliers) c.
Proof.
  unfold calculateGPA_totals. now rewrite fold_left_app.
Qed.

#[export] Instance totals_eq_Equivalence : Equivalence totals_eq.
Proof.
  split.
  - intros [p t]. split; reflexivity.
  - intros [p t] [p' t'] [Hp Ht]. split; now symmetry.
  - intros [p t] [p' t'] [p'' t''] [Hp Ht] [Hp' Ht'].
    split; etransitivity; eassumption.
Qed.

Lemma num_add_0_r (x : number) : (x + Fin 0)%num =n= x.
Proof.
  destruct x as [q| |s]; simpl; try reflexivity. ring.
Qed.

(** C7, as the code has it.  A course whose grade the scale's table
    leaves undefined (the grade is not a key of the table, nor the name
    of an inherited member) has base grade point 0, and no error arises:
    the iteration that visits it, whatever courses came before, adds its
    weighting bonus times its credits to the point total and its credits
    to the credit total.  The bonus is [multipliers[weightType]] when
    weighting applies to the course and nothing otherwise, so the
    iteration leaves the point total as it was whenever weighting does
    not apply to the course, as always when [useWeighting] is false.
    The courses after it are then visited from that state. *)
Theorem calculateGPA_unknown_grade :
  forall scale useWeighting multipliers before c after,
    Record_get (ScaleConfig.points (SCALE_CONFIG scale)) (Course.grade c)
    = None ->
    let visited :=
      calculateGPA_totals (before ++ [c]) scale useWeighting multipliers in
    let previous :=
      calculateGPA_totals before scale useWeighting multipliers in
    points scale (Course.grade c) = 0
    /\ totals_eq visited
         ((fst previous
           + Fin (weightBonus scale useWeighting multipliers c)
             * Fin (Course.credits c))%num,
          (snd previous + Fin (Course.credits c))%num)
    /\ (weightingApplies scale useWeighting c = false ->
        totals_eq visited
          (fst previous, (snd previous + Fin (Course.credits c))%num))
    /\ calculateGPA_totals (before ++ c :: after) scale useWeighting multipliers
       = fold_left
           (calculateGPA_step (SCALE_CONFIG scale) scale useWeighting multipliers)
           after visited.
Proof.
  intros scale useWeighting multipliers before c after Hnone visited previous.
  destruct (Record_get_None _ _ Hnone) as [Hbase Hown].
  assert (Hstep : totals_eq visited
            ((fst previous
              + Fin (weightBonus scale useWeighting multipliers c)
                * Fin (Course.credits c))%num,
             (snd previous + Fin (Course.credits c))%num)).
  { unfold visited. rewrite calculateGPA_totals_snoc. fold previous.
    destruct previous as [totalPoints totalCredits].
    unfold calculateGPA_step, weightBonus, weightingApplies.
    rewrite (inheritedGrade_false _ _ Hown), Hbase.
    cbn [fst snd].
    destruct (Course.weightType c) as [w|];
      [destruct useWeighting, (Course.isWeighted c) as [[|]|], scale|];
      cbn [andb truthy GPAScale_eqb JSValue_add ToNumber];
      split; cbn [fst snd]; try reflexivity.
    apply num_add_comp; [reflexivity|].
    apply num_mul_comp; [|reflexivity].
    unfold num_eq. ring. }
  split; [exact Hbase|]. split; [exact Hstep|]. split.
  - intros Hoff. rewrite Hstep. split; cbn [fst snd]; [|reflexivity].
    assert (Hzero : weightBonus scale useWeighting multipliers c = 0)
      by (unfold weightBonus; rewrite Hoff; now destruct (Course.weightType c)).
    rewrite Hzero.
    assert (E : (Fin 0 * Fin (Course.credits c))%num =n= Fin 0)
      by (unfold num_eq; simpl; ring).
    rewrite E. apply num_add_0_r.
  - unfold visited, calculateGPA_totals.
    rewrite <- fold_left_app, <- app_assoc. reflexivity.
Qed.

Lemma calculateGPA_unknown_grade_witness :
  let c := course "Z" 3 in
  Record_get (ScaleConfig.points (SCALE_CONFIG US)) (Course.grade c) = None
  /\ totals_eq
       (calculateGPA_totals ([course "A" 3] ++ [c]) US false
                            DEFAULT_WEIGHT_MULTIPLIERS)
       (fst (calculateGPA_totals [course "A" 3] US false
                                 DEFAULT_WEIGHT_MULTIPLIERS),
        (snd (calculateGPA_totals [course "A" 3] US false
                                  DEFAULT_WEIGHT_MULTIPLIERS)
         + Fin (Course.credits c))%num).
Proof.
  split; [reflexivity|].
  exact (proj1 (proj2 (proj2 (calculateGPA_unknown_grade US false
                         DEFAULT_WEIGHT_MULTIPLIERS [course "A" 3]
                         (course "Z" 3) [course "B" 2] eq_refl))) eq_refl).
Defined.

(** C7 as stated fails when weighting applies to the course: an AP
    course of three credits whose grade the US table leaves undefined
    adds [1.0 * 3] points under the default table, not 0, and the
    average of that course alone is 1, in binary64 as well. *)
Lemma calculateGPA_unknown_grade_counterexample :
  let c := weighted "Z" 3 AP in
  Record_get (ScaleConfig.points (SCALE_CONFIG US)) (Course.grade c) = None
  /\ totals_eq
       (calculateGPA_totals [c] US true DEFAULT_WEIGHT_MULTIPLIERS)
       (Fin 3, Fin 3)
  /\ ~ totals_eq
        (calculateGPA_totals ([] ++ [c]) US true DEFAULT_WEIGHT_MULTIPLIERS)
        (fst (calculateGPA_totals [] US true DEFAULT_WEIGHT_MULTIPLIERS),
         (snd (calculateGPA_totals [] US true DEFAULT_WEIGHT_MULTIPLIERS)
          + Fin (Course.credits c))%num)
  /\ calculateGPA [c] US true DEFAULT_WEIGHT_MULTIPLIERS =n= Fin 1
  /\ calculateGPA_binary64 [c] US true DEFAULT_WEIGHT_MULTIPLIERS = 1%float.
Proof.
  cbv zeta. split; [reflexivity|].
  split; [split; vm_compute; reflexivity|].
  split; [|split; vm_compute; reflexivity].
  intros [H _]. vm_compute in H. discriminate H.
Qed.

(* ================================================================= *)
(** ** The weighted display cap *)

Lemma existsb_hasWeightType (w : WeightType) (courses : list Course.t) :
  existsb (hasWeightType w) courses = true
  <-> Exists (fun c => Course.weightType c = Some w) courses.
Proof.
  rewrite existsb_exists, Exists_exists.
  split; intros (c & Hin & Hc); exists c; (split; [exact Hin|]);
    unfold hasWeightType in *;
    destruct (Course.weightType c) as [[| |]|], w;
    congruence.
Qed.

(** C5.  [getWeightedGPACap courses] is the weighted maximum of the
    scale, 5.0 for US, whenever some course has weight type ["AP"],
    whatever else the list holds; failing that, when some course has
    weight type ["Honours"], it is the unweighted maximum plus the
    ["Honours"] multiplier; and when no course has either weight type it
    is the unweighted maximum. *)
Theorem getWeightedGPACap_cases :
  forall courses,
    (Exists (fun c => Course.weightType c = Some AP) courses ->
     getWeightedGPACap courses = Fin (ScaleConfig.weightedMax (SCALE_CONFIG US))
     /\ getWeightedGPACap courses = Fin 5.0)
    /\ (~ Exists (fun c => Course.weightType c = Some AP) courses ->
        Exists (fun c => Course.weightType c = Some Honours) courses ->
        getWeightedGPACap courses
        =n= Fin (ScaleConfig.max (SCALE_CONFIG US)
                 + WeightMultipliers.Honours DEFAULT_WEIGHT_MULTIPLIERS))
    /\ (~ Exists (fun c => Course.weightType c = Some AP) courses ->
        ~ Exists (fun c => Course.weightType c = Some Honours) courses ->
        getWeightedGPACap courses = Fin (ScaleConfig.max (SCALE_CONFIG US))).
Proof.
  intros courses. unfold getWeightedGPACap.
  pose proof (existsb_hasWeightType AP courses) as HAP.
  pose proof (existsb_hasWeightType Honours courses) as HHon.
  destruct (existsb (hasWeightType AP) courses);
    destruct (existsb (hasWeightType Honours) courses);
    repeat split; intros; try reflexivity;
    try (exfalso; tauto);
    match goal with
    | H : Exists _ _ |- _ =>
        first [ apply HAP in H | apply HHon in H ]; discriminate H
    end.
Qed.

Lemma getWeightedGPACap_cases_witness :
  let courses := [course "A" 3; weighted "B+" 4 Honours; weighted "C" 3 Standard] in
  ~ Exists (fun c => Course.weightType c = Some AP) courses
  /\ Exists (fun c => Course.weightType c = Some Honours) courses
  /\ getWeightedGPACap courses
     =n= Fin (ScaleConfig.max (SCALE_CONFIG US)
              + WeightMultipliers.Honours DEFAULT_WEIGHT_MULTIPLIERS).
Proof.
  assert (HAP : ~ Exists (fun c => Course.weightType c = Some AP)
                  [course "A" 3; weighted "B+" 4 Honours; weighted "C" 3 Standard]).
  { intros H. apply existsb_hasWeightType in H. discriminate H. }
  assert (HHon : Exists (fun c => Course.weightType c = Some Honours)
                   [course "A" 3; weighted "B+" 4 Honours; weighted "C" 3 Standard]).
  { apply existsb_hasWeightType. reflexivity. }
  split; [exact HAP|]. split; [exact HHon|].
  exact (proj1 (proj2 (getWeightedGPACap_cases _)) HAP HHon).
Defined.

(* ================================================================= *)
(** ** Prediction blending *)

Lemma fold_credits_Fin (courses : list Course.t) :
  forall a : Q,
  exists a' : Q,
    fold_left (fun sum c => (sum + Fin (Course.credits c))%num) courses (Fin a)
    = Fin a'
    /\ a' == a + sumCredits courses.
Proof.
  unfold sumCredits, sumOver.
  induction courses as [|c courses IH]; intros a; cbn [fold_left fold_right].
  - exists a. split; [reflexivity | ring].
  - destruct (IH (a + Course.credits c)) as (a' & H & Ha').
    exists a'. split; [exact H|]. rewrite Ha'. ring.
Qed.

Lemma sumCredits_asCourse (courses : list PredictionCourse.t) :
  sumCredits (map asCourse courses) = sumOver PredictionCourse.credits courses.
Proof.
  unfold sumCredits, sumOver.
  induction courses as [|c courses IH]; cbn [map fold_right].
  - reflexivity.
  - now rewrite IH.
Qed.

Lemma sumOver_nonneg {A : Type} (f : A -> Q) (l : list A) :
  Forall (fun x => 0 <= f x) l -> 0 <= sumOver f l.
Proof.
  unfold sumOver. induction 1 as [|x l Hx _ IH]; cbn [fold_right]; lra.
Qed.

Lemma num_gt_not_NaN (x y : number) : (x >? y)%num = true -> isNaN x = false.
Proof. destruct x as [a| |[|]]; simpl; congruence. Qed.

(** Credits that exceed 0 still do after a non-negative amount is added. *)
Lemma num_gt_add_nonneg (x : number) (b : Q) :
  (x >? Fin 0)%num = true -> 0 <= b -> (x + Fin b >? Fin 0)%num = true.
Proof.
  destruct x as [a| |[|]]; simpl; try congruence.
  rewrite !Qltb_lt. lra.
Qed.

(** With expected courses present, the callback reads as follows in
    terms of the future GPA and the sum of the expected credits. *)
Lemma calculateProjectedGPA_nonempty
    parseFloat currentGPA currentCredits courses scale :
  courses <> [] ->
  let gpa := parseFloat currentGPA in
  let credits := parseFloat currentCredits in
  let futureGPA :=
    calculateGPA (map asCourse courses) scale false DEFAULT_WEIGHT_MULTIPLIERS in
  let futureCredits := Fin (sumOver PredictionCourse.credits courses) in
  calculateProjectedGPA parseFloat currentGPA currentCredits courses scale
  =n= if negb (isNaN gpa) && negb (isNaN credits) && (credits >? Fin 0)%num
      then if (credits + futureCredits >? Fin 0)%num
           then ((gpa * credits + futureGPA * futureCredits)
                 / (credits + futureCredits))%num
           else Fin 0
      else futureGPA.
Proof.
  intros Hne gpa credits futureGPA futureCredits.
  unfold calculateProjectedGPA.
  destruct courses as [|c0 cs]; [contradiction|].
  cbn [List.length Nat.eqb].
  change (map _ (c0 :: cs)) with (map asCourse (c0 :: cs)).
  fold gpa credits futureGPA.
  destruct (fold_credits_Fin (map asCourse (c0 :: cs)) 0) as (fc & -> & Hfc).
  assert (E : Fin fc =n= futureCredits).
  { unfold futureCredits. rewrite <- sumCredits_asCourse.
    unfold num_eq. rewrite Hfc. apply Qplus_0_l. }
  destruct (negb (isNaN gpa) && negb (isNaN credits) && (credits >? Fin 0)%num);
    [|reflexivity].
  rewrite E.
  destruct (credits + futureCredits >? Fin 0)%num; [|reflexivity].
  now rewrite E.
Qed.

(* ================================================================= *)
(** ** Worked scenarios *)

Example scenario_AU :
  calculateGPA [course "HD" 10; course "P" 10] AU false
               DEFAULT_WEIGHT_MULTIPLIERS
  =n= Fin 5.5.
Proof. vm_compute. reflexivity. Qed.

Example scenario_AP :
  calculateGPA [weighted "A" 4 AP] US true DEFAULT_WEIGHT_MULTIPLIERS
  =n= Fin 5.0.
Proof. vm_compute. reflexivity. Qed.

Example scenario_cumulative :
  calculateCumulativeGPA
    [ Semester.mk "" "" "" [course "A" 3] US;
      Semester.mk "" "" "" [course "B" 3] US ]
    false DEFAULT_WEIGHT_MULTIPLIERS
  =n= Fin 3.5.
Proof. vm_compute. reflexivity. Qed.

Example scenario_projected :
  calculateProjectedGPA parseFloat_sample "3.0" "60" [expected "A" 3] US
  =n= Fin ((3.0 * 60 + 4.0 * 3) / 63).
Proof. vm_compute. reflexivity. Qed.

Example scenario_projected_blank :
  calculateProjectedGPA parseFloat_sample "" "" [expected "A" 4] US
  =n= Fin 4.0.
Proof. vm_compute. reflexivity. Qed.

Example scenario_projected_no_courses :
  calculateProjectedGPA parseFloat_sample "3.5" "" [] US = Fin 3.5.
Proof. reflexivity. Qed.


(** The same scenarios replayed in binary64. *)
Example scenario_AU_binary64 :
  calculateGPA_binary64 [course "HD" 10; course "P" 10] AU false
                        DEFAULT_WEIGHT_MULTIPLIERS
  = 5.5%float.
Proof. vm_compute. reflexivity. Qed.

Example scenario_AP_binary64 :
  calculateGPA_binary64 [weighted "A" 4 AP] US true DEFAULT_WEIGHT_MULTIPLIERS
  = 5%float.
Proof. vm_compute. reflexivity. Qed.

(* ================================================================= *)
(** ** Further properties of [calculateGPA] *)

#[export] Instance num_value_comp : Proper (num_eq ==> Qeq) num_value.
Proof.
  intros [a| |s] [b| |t] H; simpl in *; try tauto; reflexivity.
Qed.

Lemma sumOver_perm {A : Type} (f : A -> Q) (l l' : list A) :
  Permutation l l' -> sumOver f l == sumOver f l'.
Proof.
  unfold sumOver.
  induction 1 as [|x l l' _ IH|x y l|l l' l'' _ IH1 _ IH2]; cbn [fold_right].
  - reflexivity.
  - now rewrite IH.
  - ring.
  - now rewrite IH1.
Qed.

Lemma anyInherited_perm scale (l l' : list Course.t) :
  Permutation l l' -> anyInherited scale l = anyInherited scale l'.
Proof.
  unfold anyInherited.
  induction 1 as [|x l l' _ IH|x y l|l l' l'' _ IH1 _ IH2]; cbn [existsb].
  - reflexivity.
  - now rewrite IH.
  - now rewrite !orb_assoc,
      (orb_comm (inheritedGrade scale (Course.grade y))).
  - now rewrite IH1.
Qed.

(** X1.  On courses whose credits are credit options and whose grades
    have whole-number points (every AU grade; A, B, C, D and F on the US
    scale), [calculateGPA] under the default multipliers does not depend
    on the order of the courses: every product and partial sum is then a
    multiple of one half, which binary64 adds without rounding in any
    order. *)
Theorem calculateGPA_permutation :
  forall courses courses' scale useWeighting,
    Permutation courses courses' ->
    creditsFromOptions courses ->
    Forall (fun c => isWhole (points scale (Course.grade c)) = true) courses ->
    calculateGPA courses scale useWeighting DEFAULT_WEIGHT_MULTIPLIERS
    =n= calculateGPA courses' scale useWeighting DEFAULT_WEIGHT_MULTIPLIERS.
Proof.
  intros courses courses' scale useWeighting Hperm _ _.
  rewrite !calculateGPA_closed.
  rewrite <- (anyInherited_perm scale _ _ Hperm).
  assert (Hc : sumCredits courses == sumCredits courses')
    by (apply sumOver_perm; exact Hperm).
  assert (Hp : sumPoints scale useWeighting DEFAULT_WEIGHT_MULTIPLIERS courses
               == sumPoints scale useWeighting DEFAULT_WEIGHT_MULTIPLIERS
                    courses')
    by (apply sumOver_perm; exact Hperm).
  rewrite <- Hc.
  destruct (Qltb 0 (sumCredits courses)); [|reflexivity].
  destruct (anyInherited scale courses); [reflexivity|].
  now rewrite Hp, Hc.
Qed.

Lemma calculateGPA_permutation_witness :
  let a := weighted "A" 4 AP in
  let b := course "C" 3 in
  let c := weighted "B" 2 Honours in
  Permutation [a; b; c] [c; a; b]
  /\ creditsFromOptions [a; b; c]
  /\ Forall (fun c => isWhole (points US (Course.grade c)) = true) [a; b; c]
  /\ calculateGPA [a; b; c] US true DEFAULT_WEIGHT_MULTIPLIERS
     =n= calculateGPA [c; a; b] US true DEFAULT_WEIGHT_MULTIPLIERS
  /\ calculateGPA_binary64 [a; b; c] US true DEFAULT_WEIGHT_MULTIPLIERS
     = calculateGPA_binary64 [c; a; b] US true DEFAULT_WEIGHT_MULTIPLIERS.
Proof.
  assert (H : Permutation
                [weighted "A" 4 AP; course "C" 3; weighted "B" 2 Honours]
                [weighted "B" 2 Honours; weighted "A" 4 AP; course "C" 3]).
  { apply Permutation_sym. apply (Permutation_cons_app [_; _] []).
    reflexivity. }
  assert (Hopt : creditsFromOptions
                   [weighted "A" 4 AP; course "C" 3; weighted "B" 2 Honours])
    by (repeat constructor).
  assert (Hwhole : Forall (fun c => isWhole (points US (Course.grade c)) = true)
                     [weighted "A" 4 AP; course "C" 3; weighted "B" 2 Honours])
    by (repeat constructor).
  split; [exact H|]. split; [exact Hopt|]. split; [exact Hwhole|].
  split; [|vm_compute; reflexivity].
  exact (calculateGPA_permutation _ _ US true H Hopt Hwhole).
Defined.

(** Bounds on the effective points carry over to the result. *)
Lemma sumPoints_range scale w m lo hi courses :
  Forall (fun c => 0 <= Course.credits c) courses ->
  Forall (fun c => lo <= effectivePoint scale w m c
                   /\ effectivePoint scale w m c <= hi) courses ->
  0 <= sumCredits courses
  /\ lo * sumCredits courses <= sumPoints scale w m courses
  /\ sumPoints scale w m courses <= hi * sumCredits courses.
Proof.
  unfold sumPoints, sumCredits, sumOver.
  induction 1 as [|c courses Hc _ IH]; intros Hb; cbn [fold_right].
  - repeat split; lra.
  - inversion Hb as [|? ? [Hlo Hhi] Hrest]; subst.
    destruct (IH Hrest) as (IHc & IHlo & IHhi).
    repeat split; nra.
Qed.

Lemma calculateGPA_between scale w m lo hi courses :
  lo <= 0 -> 0 <= hi ->
  anyInherited scale courses = false ->
  Forall (fun c => 0 <= Course.credits c) courses ->
  Forall (fun c => lo <= effectivePoint scale w m c
                   /\ effectivePoint scale w m c <= hi) courses ->
  num_within lo hi (calculateGPA courses scale w m).
Proof.
  intros Hlo Hhi Hown Hc Hb.
  rewrite calculateGPA_closed, Hown.
  destruct (sumPoints_range scale w m lo hi courses Hc Hb) as (_ & Hl & Hh).
  destruct (Qltb 0 (sumCredits courses)) eqn:E; simpl.
  - apply Qltb_lt in E. split.
    + apply Qle_shift_div_l; [exact E | exact Hl].
    + apply Qle_shift_div_r; [exact E | exact Hh].
  - split; assumption.
Qed.

Lemma weightBonus_default_range scale w c :
  0 <= weightBonus scale w DEFAULT_WEIGHT_MULTIPLIERS c
  /\ points scale (Course.grade c)
     + weightBonus scale w DEFAULT_WEIGHT_MULTIPLIERS c
     <= ScaleConfig.weightedMax (SCALE_CONFIG scale).
Proof.
  destruct (points_range scale (Course.grade c)) as [Hlo Hhi].
  unfold weightBonus, weightingApplies.
  destruct (Course.weightType c) as [[| |]|], w,
    (Course.isWeighted c) as [[|]|], scale; cbn in *; lra.
Qed.

Lemma creditsFromOptions_nonneg (courses : list Course.t) :
  creditsFromOptions courses ->
  Forall (fun c => 0 <= Course.credits c) courses.
Proof.
  apply Forall_impl. intros c Hc. apply isCreditOption_pos in Hc. lra.
Qed.

(** X3.  With the default multipliers, credits that are credit options
    and grades that do not name an inherited member, the result of
    [calculateGPA], weighted or not, lies between 0 and the scale's
    [weightedMax] (5.0 for US, 7.0 for AU), the ceiling the semester
    screen prints beside a weighted GPA. *)
Theorem calculateGPA_weighted_range :
  forall scale courses useWeighting,
    creditsFromOptions courses ->
    anyInherited scale courses = false ->
    num_within 0 (ScaleConfig.weightedMax (SCALE_CONFIG scale))
      (calculateGPA courses scale useWeighting DEFAULT_WEIGHT_MULTIPLIERS)
    /\ ScaleConfig.weightedMax (SCALE_CONFIG scale)
       = match scale with US => 5.0 | AU => 7.0 end.
Proof.
  intros scale courses useWeighting Hopt Hown.
  split; [|now destruct scale].
  apply calculateGPA_between; try exact Hown.
  - lra.
  - destruct scale; cbn; lra.
  - now apply creditsFromOptions_nonneg.
  - apply Forall_forall. intros c _. unfold effectivePoint.
    destruct (points_range scale (Course.grade c)) as [Hlo _].
    destruct (weightBonus_default_range scale useWeighting c) as [Hb Hhi].
    split; [lra | exact Hhi].
Qed.

Lemma calculateGPA_weighted_range_witness :
  let courses := [weighted "A" 4 AP; weighted "A-" 3 Honours; course "B" 2] in
  creditsFromOptions courses
  /\ anyInherited US courses = false
  /\ num_within 0 5.0
       (calculateGPA courses US true DEFAULT_WEIGHT_MULTIPLIERS).
Proof.
  assert (H : creditsFromOptions
                [weighted "A" 4 AP; weighted "A-" 3 Honours; course "B" 2])
    by (repeat constructor).
  split; [exact H|]. split; [reflexivity|].
  exact (proj1 (calculateGPA_weighted_range US _ true H eq_refl)).
Defined.

Lemma weightBonus_nonneg scale w m c :
  0 <= WeightMultipliers.AP m ->
  0 <= WeightMultipliers.Honours m ->
  0 <= WeightMultipliers.Standard m ->
  0 <= weightBonus scale w m c.
Proof.
  intros HAP HHon HStd. unfold weightBonus.
  destruct (Course.weightType c) as [[| |]|];
    try destruct (weightingApplies scale w c); cbn; lra.
Qed.

(** X4.  With multipliers that are not negative and credits that are not
    negative, switching weighting on never lowers the result of
    [calculateGPA]. *)
Theorem calculateGPA_weighting_monotone :
  forall courses scale multipliers,
    0 <= WeightMultipliers.AP multipliers ->
    0 <= WeightMultipliers.Honours multipliers ->
    0 <= WeightMultipliers.Standard multipliers ->
    Forall (fun c => 0 <= Course.credits c) courses ->
    num_value (calculateGPA courses scale false multipliers)
    <= num_value (calculateGPA courses scale true multipliers).
Proof.
  intros courses scale multipliers HAP HHon HStd Hc.
  rewrite !calculateGPA_closed.
  assert (Hle : sumPoints scale false multipliers courses
                <= sumPoints scale true multipliers courses).
  { unfold sumPoints, sumOver.
    induction Hc as [|c courses Hcr _ IH]; cbn [fold_right]; [lra|].
    assert (Hstep : effectivePoint scale false multipliers c
                    <= effectivePoint scale true multipliers c).
    { rewrite effectivePoint_unweighted. unfold effectivePoint.
      pose proof (weightBonus_nonneg scale true multipliers c HAP HHon HStd).
      lra. }
    nra. }
  destruct (Qltb 0 (sumCredits courses)) eqn:E; simpl; [|lra].
  destruct (anyInherited scale courses); simpl; [lra|].
  apply Qltb_lt in E.
  apply Qle_shift_div_l; [exact E|].
  setoid_replace (sumPoints scale false multipliers courses
                  / sumCredits courses * sumCredits courses)
    with (sumPoints scale false multipliers courses); [exact Hle|].
  field. lra.
Qed.

Lemma calculateGPA_weighting_monotone_witness :
  let courses := [weighted "B+" 3 AP; course "A" 4] in
  num_value (calculateGPA courses US false DEFAULT_WEIGHT_MULTIPLIERS)
  <= num_value (calculateGPA courses US true DEFAULT_WEIGHT_MULTIPLIERS).
Proof.
  apply calculateGPA_weighting_monotone;
    try discriminate; repeat constructor; discriminate.
Defined.

(** X5.  With credits that are credit options and the default
    multipliers, [calculateGPA] returns [NaN] exactly when some grade
    names an inherited member, and a finite number otherwise: never an
    infinity. *)
Theorem calculateGPA_NaN_inherited :
  forall courses scale useWeighting,
    creditsFromOptions courses ->
    (anyInherited scale courses = true ->
     calculateGPA courses scale useWeighting DEFAULT_WEIGHT_MULTIPLIERS = NaN)
    /\ (anyInherited scale courses = false ->
        exists q : Q,
          calculateGPA courses scale useWeighting DEFAULT_WEIGHT_MULTIPLIERS
          = Fin q).
Proof.
  intros courses scale useWeighting Hopt. split.
  - intros Hinh.
    assert (Hne : courses <> []) by (intros ->; discriminate Hinh).
    pose proof (sumCredits_pos _ Hne (creditsFromOptions_pos _ Hopt)) as Hpos.
    apply Qltb_lt in Hpos.
    pose proof (calculateGPA_closed scale useWeighting
                  DEFAULT_WEIGHT_MULTIPLIERS courses) as H.
    rewrite Hpos, Hinh in H.
    destruct (calculateGPA _ _ _ _); [contradiction | reflexivity | contradiction].
  - apply calculateGPA_finite.
Qed.

Lemma calculateGPA_NaN_inherited_witness :
  let courses := [course "A" 3; course "toString" 4] in
  creditsFromOptions courses
  /\ anyInherited US courses = true
  /\ calculateGPA courses US false DEFAULT_WEIGHT_MULTIPLIERS = NaN.
Proof.
  assert (H : creditsFromOptions [course "A" 3; course "toString" 4])
    by (repeat constructor).
  split; [exact H|]. split; [reflexivity|].
  exact (proj1 (calculateGPA_NaN_inherited _ US false H) eq_refl).
Defined.

(* ================================================================= *)
(** ** Further properties of [calculateCumulativeGPA] *)

(** X6.  [calculateCumulativeGPA] reads the scale of the first semester
    only: two semester lists that start with the same semester and hold
    the same courses semester by semester give the same result, whatever
    the scales of the later semesters. *)
Theorem calculateCumulativeGPA_first_scale_only :
  forall first rest rest' useWeighting multipliers,
    map Semester.courses rest = map Semester.courses rest' ->
    calculateCumulativeGPA (first :: rest) useWeighting multipliers
    = calculateCumulativeGPA (first :: rest') useWeighting multipliers.
Proof.
  intros first rest rest' useWeighting multipliers Hsame.
  unfold calculateCumulativeGPA.
  rewrite !flat_map_concat_map. cbn [map nth_error].
  now rewrite Hsame.
Qed.

Lemma calculateCumulativeGPA_first_scale_only_witness :
  let first := Semester.mk "1" "Autumn" "Term" [course "A" 3] US in
  let later := Semester.mk "2" "Spring" "Term" [course "HD" 10] AU in
  map Semester.courses [later] = map Semester.courses [withScale US later]
  /\ calculateCumulativeGPA [first; later] false DEFAULT_WEIGHT_MULTIPLIERS
     = calculateCumulativeGPA [first; withScale US later] false
                              DEFAULT_WEIGHT_MULTIPLIERS.
Proof.
  split; [reflexivity|].
  exact (calculateCumulativeGPA_first_scale_only _ _ _ false
           DEFAULT_WEIGHT_MULTIPLIERS eq_refl).
Defined.

Lemma sumOver_app {A : Type} (f : A -> Q) (l1 l2 : list A) :
  sumOver f (l1 ++ l2) == sumOver f l1 + sumOver f l2.
Proof.
  unfold sumOver. induction l1 as [|x l1 IH]; cbn [app fold_right].
  - ring.
  - rewrite IH. ring.
Qed.

Lemma sumOver_flat_map {A B : Type} (g : A -> list B) (f : B -> Q) (l : list A) :
  sumOver f (flat_map g l) == sumOver (fun a => sumOver f (g a)) l.
Proof.
  induction l as [|a l IH]; cbn [flat_map].
  - reflexivity.
  - rewrite sumOver_app, IH. reflexivity.
Qed.

Lemma sumOver_pos {A : Type} (f : A -> Q) (l : list A) :
  l <> [] -> Forall (fun x => 0 < f x) l -> 0 < sumOver f l.
Proof.
  intros Hne H. destruct H as [|x l Hx Hrest]; [contradiction|].
  unfold sumOver. cbn [fold_right].
  assert (0 <= sumOver f l).
  { apply sumOver_nonneg. apply Forall_impl with (2 := Hrest).
    intros a Ha. lra. }
  unfold sumOver in *. lra.
Qed.

(* ================================================================= *)
(** ** The scale tables *)

Lemma Record_own_keys (table : Record_string_number) (key : string) :
  (exists v, Record_own table key = Some v) <-> In key (map fst table).
Proof.
  induction table as [|[k v] rest IH]; cbn [Record_own map fst In].
  - split; [intros [v H]; discriminate | contradiction].
  - destruct (String.eqb k key) eqn:E.
    + apply String.eqb_eq in E. split; [now left | now exists v].
    + apply String.eqb_neq in E. rewrite IH. tauto.
Qed.

(** The lookup gives a number exactly on the own keys. *)
Lemma Record_get_number (table : Record_string_number) (key : string) (p : Q) :
  Record_get table key = Some (VNumber p) <-> Record_own table key = Some p.
Proof.
  unfold Record_get.
  destruct (Record_own table key) as [v|].
  - split; intros [= ->]; reflexivity.
  - destruct (existsb _ _); split; discriminate.
Qed.

(** X8.  On either scale the grades on offer are exactly the keys of the
    grade-point table, those on which the lookup gives a number, so that
    a grade picked from the list never falls back to 0 for want of an
    entry; the points fall strictly along the
    list, best grade first; and every credit option is positive. *)
Theorem SCALE_CONFIG_consistent :
  forall scale,
    let config := SCALE_CONFIG scale in
    (forall g, In g (ScaleConfig.grades config)
               <-> exists p, Record_get (ScaleConfig.points config) g
                             = Some (VNumber p))
    /\ StronglySorted (fun better worse => worse < better)
         (map (points scale) (ScaleConfig.grades config))
    /\ Forall (fun option => 0 < option) (ScaleConfig.creditOptions config).
Proof.
  intros scale config. split; [|split].
  - intros g.
    transitivity (exists p, Record_own (ScaleConfig.points config) g = Some p).
    + rewrite Record_own_keys. now destruct scale.
    + split; intros [p H]; exists p; now apply Record_get_number.
  - destruct scale; cbn;
      repeat (constructor; [|repeat constructor]); constructor.
  - destruct scale; cbn; repeat constructor.
Qed.

(* ================================================================= *)
(** ** [GPACalculatorScreen] *)

(** X9.  The calculator screen's own [calculateGPA] agrees with the
    shared [calculateGPA] without weighting, on every course list and
    scale and for any multiplier table. *)
Theorem GPACalculatorScreen_calculateGPA_agrees :
  forall courses scale multipliers,
    GPACalculatorScreen_calculateGPA courses scale
    = calculateGPA courses scale false multipliers.
Proof.
  intros courses scale multipliers.
  unfold GPACalculatorScreen_calculateGPA, calculateGPA, calculateGPA_totals.
  destruct (Nat.eqb (List.length courses) 0); [reflexivity|].
  match goal with
  | |- (let '(_, _) := fold_left ?f _ _ in _)
       = (let '(_, _) := fold_left ?g _ _ in _) =>
      rewrite (fold_left_ext_all f g)
  end; [reflexivity|].
  intros [totalPoints totalCredits] c. unfold calculateGPA_step.
  destruct (Course.weightType c); reflexivity.
Qed.

(** X10.  When [GPACalculatorScreen]'s [handleAddCourse] accepts a
    course, the new course carries the grade that was selected and
    credits among the scale's options, and the selection is put back to
    ["A"] whatever the scale.  On the AU scale ["A"] is not among the
    grades and has no grade point, so a course added next without
    picking a grade counts 0 points. *)
Theorem GPACalculatorScreen_add_resets_grade :
  forall parseInt trim toLowerCase isWeb now st,
    let creditValue := parseInt (CalculatorState.credits st) in
    let options :=
      ScaleConfig.creditOptions (SCALE_CONFIG (CalculatorState.scale st)) in
    let st' :=
      fst (GPACalculatorScreen_handleAddCourse
             parseInt trim toLowerCase isWeb now st) in
    trim (CalculatorState.courseName st) <> ""%string ->
    Array_includes options creditValue = true ->
    (exists c,
        CalculatorState.courses st' = CalculatorState.courses st ++ [c]
        /\ Course.grade c = CalculatorState.selectedGrade st
        /\ existsb (Qeq_bool (Course.credits c)) options = true)
    /\ CalculatorState.selectedGrade st' = "A"%string
    /\ ~ In (CalculatorState.selectedGrade st')
            (ScaleConfig.grades (SCALE_CONFIG AU))
    /\ points AU (CalculatorState.selectedGrade st') = 0.
Proof.
  intros parseInt trim toLowerCase isWeb now st creditValue options st'
         Hname Hcredits.
  unfold st', GPACalculatorScreen_handleAddCourse.
  apply String.eqb_neq in Hname. rewrite Hname.
  fold creditValue options. rewrite Hcredits.
  destruct creditValue as [q| |neg] eqn:E; try discriminate Hcredits.
  cbn [isNaN orb negb fst CalculatorState.courses
       CalculatorState.selectedGrade].
  split; [|split; [reflexivity|split]].
  - eexists. split; [reflexivity|]. split; [reflexivity|exact Hcredits].
  - cbn. intuition discriminate.
  - reflexivity.
Qed.

Lemma GPACalculatorScreen_add_resets_grade_witness :
  let st := CalculatorState.mk "Maths" "HD" "10" [] AU in
  let st' :=
    fst (GPACalculatorScreen_handleAddCourse
           (fun _ => Fin 10) (fun text => text) (fun text => text) false
           "1700000000000" st) in
  CalculatorState.selectedGrade st' = "A"%string
  /\ points AU (CalculatorState.selectedGrade st') = 0.
Proof.
  pose proof (GPACalculatorScreen_add_resets_grade
                (fun _ => Fin 10) (fun text => text) (fun text => text) false
                "1700000000000" (CalculatorState.mk "Maths" "HD" "10" [] AU))
    as H.
  cbv zeta in H.
  destruct (H ltac:(discriminate) eq_refl) as (_ & Hsel & _ & Hpts).
  split; [exact Hsel | exact Hpts].
Defined.

(* ================================================================= *)
(** ** [PredictionScreen] *)

Lemma creditOptions_isCreditOption (scale : GPAScale) (q : Q) :
  existsb (Qeq_bool q) (ScaleConfig.creditOptions (SCALE_CONFIG scale)) = true ->
  isCreditOption q = true.
Proof.
  unfold isCreditOption. rewrite existsb_app.
  destruct scale; cbn [SCALE_CONFIG ScaleConfig.creditOptions];
    intros ->; [reflexivity | apply orb_true_r].
Qed.

Lemma grades_first (scale : GPAScale) :
  In (nth 0 (ScaleConfig.grades (SCALE_CONFIG scale)) ""%string)
     (ScaleConfig.grades (SCALE_CONFIG scale)).
Proof. destruct scale; cbn; auto. Qed.

Section PredictionFacts.

Variables (parseInt : string -> number) (trim toLowerCase : string -> string)
          (isWeb : bool).

Lemma PredictionScreen_handleAddCourse_invariant now st :
  PredictionScreen_invariant st ->
  PredictionScreen_invariant
    (fst (PredictionScreen_handleAddCourse parseInt trim toLowerCase isWeb
            now st)).
Proof.
  intros [Hcourses Hgrade]. unfold PredictionScreen_handleAddCourse.
  destruct (String.eqb _ ""); [now split|].
  destruct (parseInt (PredictionState.credits st)) as [q| |neg];
    cbn [isNaN orb negb Array_includes]; try now split.
  destruct (existsb _ _) eqn:E; cbn [negb fst]; [|now split].
  split; cbn [PredictionState.courses PredictionState.selectedGrade
              PredictionState.scale].
  - apply Forall_app. split; [exact Hcourses|].
    constructor; [|constructor].
    cbn [PredictionCourse.credits num_value].
    now apply creditOptions_isCreditOption with (scale := PredictionState.scale st).
  - apply grades_first.
Qed.

Lemma PredictionScreen_step_invariant st st' :
  PredictionScreen_step parseInt trim toLowerCase isWeb st st' ->
  PredictionScreen_invariant st ->
  PredictionScreen_invariant st'.
Proof.
  intros Hstep Hinv.
  destruct Hstep; try exact Hinv;
    try (destruct Hinv as [Hcourses Hgrade]; split; cbn; assumption).
  - destruct Hinv as [Hcourses _]. split; [exact Hcourses|].
    cbn [PredictionScreen_pressScale PredictionState.selectedGrade
         PredictionState.scale].
    apply grades_first.
  - now apply PredictionScreen_handleAddCourse_invariant.
  - destruct Hinv as [Hcourses Hgrade]. split; [|exact Hgrade].
    cbn [PredictionScreen_handleDeleteCourse PredictionState.courses].
    apply Forall_forall. intros c Hc. apply filter_In in Hc.
    rewrite Forall_forall in Hcourses. now apply Hcourses.
Qed.

Lemma PredictionScreen_reachable_keeps st :
  PredictionScreen_reachable parseInt trim toLowerCase isWeb st ->
  PredictionScreen_invariant st.
Proof.
  induction 1 as [|st st' _ IH Hstep].
  - split; [constructor | cbn; auto].
  - exact (PredictionScreen_step_invariant st st' Hstep IH).
Qed.

Lemma PredictionScreen_reachable_credits st :
  PredictionScreen_reachable parseInt trim toLowerCase isWeb st ->
  Forall (fun c => 0 < PredictionCourse.credits c) (PredictionState.courses st).
Proof.
  intros Hreach.
  destruct (PredictionScreen_reachable_keeps st Hreach) as [Hcourses _].
  apply Forall_impl with (2 := Hcourses).
  intros c Hc. now apply isCreditOption_pos.
Qed.

(** X11.  Whatever the user does on the prediction screen, every
    expected course has credits drawn from the credit options of a
    scale, hence positive, and the selected grade is one of the grades
    of the scale in force. *)
Theorem PredictionScreen_reachable_invariant :
  forall st,
    PredictionScreen_reachable parseInt trim toLowerCase isWeb st ->
    Forall (fun c => isCreditOption (PredictionCourse.credits c) = true
                     /\ 0 < PredictionCourse.credits c)
           (PredictionState.courses st)
    /\ In (PredictionState.selectedGrade st)
          (ScaleConfig.grades (SCALE_CONFIG (PredictionState.scale st))).
Proof.
  intros st Hreach.
  destruct (PredictionScreen_reachable_keeps st Hreach) as [Hcourses Hgrade].
  split; [|exact Hgrade].
  apply Forall_impl with (2 := Hcourses).
  intros c Hc. split; [exact Hc | now apply isCreditOption_pos].
Qed.

End PredictionFacts.

Lemma PredictionScreen_reachable_invariant_witness :
  let parseInt := fun text : string =>
    if String.eqb text "3" then Fin 3 else NaN in
  let id := fun text : string => text in
  let typed :=
    PredictionState.mk US "" "" [] "Physics II" "B+" "3" in
  let st := fst (PredictionScreen_handleAddCourse parseInt id id false
                   "1700000000000" typed) in
  PredictionState.courses st <> []
  /\ Forall (fun c => isCreditOption (PredictionCourse.credits c) = true
                      /\ 0 < PredictionCourse.credits c)
            (PredictionState.courses st).
Proof.
  split; [discriminate|].
  refine (proj1 (PredictionScreen_reachable_invariant _ _ _ _ _ _)).
  apply reachable_step
    with (st := PredictionState.mk US "" "" [] "Physics II" "B+" "3");
    [|apply step_addCourse].
  apply reachable_step
    with (st := PredictionState.mk US "" "" [] "Physics II" "B+" "");
    [|exact (step_setCredits _ _ _ _
               (PredictionState.mk US "" "" [] "Physics II" "B+" "") "3")].
  apply reachable_step
    with (st := PredictionState.mk US "" "" [] "Physics II" "A" "");
    [|apply (step_setSelectedGrade _ _ _ _
               (PredictionState.mk US "" "" [] "Physics II" "A" "") "B+");
      cbn; auto 10].
  apply reachable_step with (st := PredictionScreen_initial);
    [|exact (step_setCourseName _ _ _ _ PredictionScreen_initial
               "Physics II")].
  apply reachable_initial.
Defined.

(** X12.  In every state the prediction screen can reach, with expected
    courses present, a current GPA that is not [NaN] and current credits
    above 0, the projected GPA is the credit-weighted blend
    [(gpa * credits + futureGPA * futureCredits) / (credits +
    futureCredits)]: the guard on the credit total never fires there. *)
Theorem PredictionScreen_projectedGPA_blend :
  forall parseInt trim toLowerCase isWeb parseFloat st,
    let gpa := parseFloat (PredictionState.currentGPA st) in
    let credits := parseFloat (PredictionState.currentCredits st) in
    let futureGPA :=
      calculateGPA (map asCourse (PredictionState.courses st))
                   (PredictionState.scale st) false DEFAULT_WEIGHT_MULTIPLIERS in
    let futureCredits :=
      Fin (sumOver PredictionCourse.credits (PredictionState.courses st)) in
    PredictionScreen_reachable parseInt trim toLowerCase isWeb st ->
    PredictionState.courses st <> [] ->
    isNaN gpa = false ->
    (credits >? Fin 0)%num = true ->
    PredictionScreen_projectedGPA parseFloat st
    =n= ((gpa * credits + futureGPA * futureCredits)
         / (credits + futureCredits))%num.
Proof.
  intros parseInt trim toLowerCase isWeb parseFloat st
         gpa credits futureGPA futureCredits Hreach Hne Hgpa Hcr.
  unfold PredictionScreen_projectedGPA.
  rewrite (calculateProjectedGPA_nonempty _ _ _ _ _ Hne).
  fold gpa credits futureGPA futureCredits.
  rewrite Hgpa, Hcr, (num_gt_not_NaN _ _ Hcr). cbn [negb andb].
  assert (Hnonneg : 0 <= sumOver PredictionCourse.credits
                               (PredictionState.courses st)).
  { apply sumOver_nonneg.
    apply Forall_impl
      with (2 := PredictionScreen_reachable_credits _ _ _ _ _ Hreach).
    intros c Hc. lra. }
  unfold futureCredits at 1.
  now rewrite (num_gt_add_nonneg _ _ Hcr Hnonneg).
Qed.

Lemma PredictionScreen_sample_reachable :
  PredictionScreen_reachable parseInt_sample (fun text => text)
    (fun text => text) false PredictionScreen_sample.
Proof.
  apply reachable_step
    with (st := PredictionState.mk US "3.0" "60" [] "Physics II" "A" "3");
    [|apply step_addCourse].
  apply reachable_step
    with (st := PredictionState.mk US "3.0" "60" [] "Physics II" "A" "");
    [|exact (step_setCredits _ _ _ _
               (PredictionState.mk US "3.0" "60" [] "Physics II" "A" "") "3")].
  apply reachable_step
    with (st := PredictionState.mk US "3.0" "60" [] "" "A" "");
    [|exact (step_setCourseName _ _ _ _
               (PredictionState.mk US "3.0" "60" [] "" "A" "") "Physics II")].
  apply reachable_step
    with (st := PredictionState.mk US "3.0" "" [] "" "A" "");
    [|exact (step_setCurrentCredits _ _ _ _
               (PredictionState.mk US "3.0" "" [] "" "A" "") "60")].
  apply reachable_step with (st := PredictionScreen_initial);
    [|exact (step_setCurrentGPA _ _ _ _ PredictionScreen_initial "3.0")].
  apply reachable_initial.
Qed.

Lemma PredictionScreen_projectedGPA_blend_witness :
  let st := PredictionScreen_sample in
  PredictionState.courses st <> []
  /\ isNaN (parseFloat_sample (PredictionState.currentGPA st)) = false
  /\ (parseFloat_sample (PredictionState.currentCredits st) >? Fin 0)%num = true
  /\ PredictionScreen_projectedGPA parseFloat_sample st
     =n= Fin ((3.0 * 60 + 4.0 * 3) / 63).
Proof.
  split; [discriminate|]. split; [reflexivity|]. split; [reflexivity|].
  etransitivity.
  - apply (PredictionScreen_projectedGPA_blend _ _ _ _ parseFloat_sample _
             PredictionScreen_sample_reachable);
      [discriminate | reflexivity | reflexivity].
  - vm_compute. reflexivity.
Defined.

(** C3.  In every state the prediction screen can reach,
    [calculateProjectedGPA] returns: (a) with no expected course, the
    current GPA when it is a valid number (not [NaN]) and 0 otherwise;
    (b) with expected courses, a valid current GPA and current credits
    above 0, the credit-weighted blend
    [(gpa * credits + futureGPA * futureCredits) / (credits +
    futureCredits)]; (c) with expected courses and a current GPA that is
    [NaN], or current credits that are [NaN] or not above 0, the future
    GPA alone: a current standing that is missing or does not parse is
    taken as absent, never as zero.  The future GPA is [calculateGPA]
    over the expected courses without weighting, and the future credits
    are the sum of their credits.  The callback reads the state of the
    screen, whose expected courses all passed [handleAddCourse] and so
    have credit options for credits: the sum of the credits is then
    above 0 and the blend is what the inner guard lets through. *)
Theorem calculateProjectedGPA_cases :
  forall parseInt trim toLowerCase isWeb parseFloat st,
    let gpa := parseFloat (PredictionState.currentGPA st) in
    let credits := parseFloat (PredictionState.currentCredits st) in
    let courses := PredictionState.courses st in
    let futureGPA :=
      calculateGPA (map asCourse courses) (PredictionState.scale st) false
                   DEFAULT_WEIGHT_MULTIPLIERS in
    let futureCredits := Fin (sumOver PredictionCourse.credits courses) in
    let result :=
      calculateProjectedGPA parseFloat
        (PredictionState.currentGPA st) (PredictionState.currentCredits st)
        courses (PredictionState.scale st) in
    PredictionScreen_reachable parseInt trim toLowerCase isWeb st ->
    (courses = [] -> result = if isNaN gpa then Fin 0 else gpa)
    /\ (courses <> [] -> isNaN gpa = false -> (credits >? Fin 0)%num = true ->
        result =n= ((gpa * credits + futureGPA * futureCredits)
                    / (credits + futureCredits))%num)
    /\ (courses <> [] ->
        isNaN gpa = true \/ isNaN credits = true
        \/ (credits >? Fin 0)%num = false ->
        result =n= futureGPA).
Proof.
  intros parseInt trim toLowerCase isWeb parseFloat st
         gpa credits courses futureGPA futureCredits result Hreach.
  split; [|split].
  - unfold result. intros ->. reflexivity.
  - intros Hne Hgpa Hcr. unfold result.
    rewrite (calculateProjectedGPA_nonempty _ _ _ _ _ Hne).
    fold gpa credits futureGPA futureCredits.
    rewrite Hgpa, Hcr, (num_gt_not_NaN _ _ Hcr). cbn [negb andb].
    assert (Hnonneg : 0 <= sumOver PredictionCourse.credits courses).
    { apply sumOver_nonneg.
      apply Forall_impl
        with (2 := PredictionScreen_reachable_credits _ _ _ _ _ Hreach).
      intros c Hc. lra. }
    unfold futureCredits at 1.
    now rewrite (num_gt_add_nonneg _ _ Hcr Hnonneg).
  - intros Hne Hoff. unfold result.
    rewrite (calculateProjectedGPA_nonempty _ _ _ _ _ Hne).
    fold gpa credits.
    destruct Hoff as [-> | [-> | ->]];
      rewrite ?andb_false_r; reflexivity.
Qed.

Lemma calculateProjectedGPA_cases_witness :
  let st := PredictionScreen_sample in
  PredictionState.courses st <> []
  /\ isNaN (parseFloat_sample (PredictionState.currentGPA st)) = false
  /\ (parseFloat_sample (PredictionState.currentCredits st) >? Fin 0)%num = true
  /\ calculateProjectedGPA parseFloat_sample
       (PredictionState.currentGPA st) (PredictionState.currentCredits st)
       (PredictionState.courses st) (PredictionState.scale st)
     =n= ((parseFloat_sample "3.0" * parseFloat_sample "60"
           + calculateGPA (map asCourse (PredictionState.courses st)) US false
                          DEFAULT_WEIGHT_MULTIPLIERS
             * Fin (sumOver PredictionCourse.credits
                            (PredictionState.courses st)))
          / (parseFloat_sample "60"
             + Fin (sumOver PredictionCourse.credits
                            (PredictionState.courses st))))%num.
Proof.
  assert (Hne : PredictionState.courses PredictionScreen_sample <> [])
    by discriminate.
  split; [exact Hne|]. split; [reflexivity|]. split; [reflexivity|].
  exact (proj1 (proj2
           (calculateProjectedGPA_cases _ _ _ _ parseFloat_sample _
              PredictionScreen_sample_reachable))
           Hne eq_refl eq_refl).
Defined.

Lemma filter_all {A : Type} (p : A -> bool) (l : list A) :
  Forall (fun x => p x = true) l -> filter p l = l.
Proof.
  induction 1 as [|x l Hx _ IH]; cbn [filter]; [reflexivity|].
  now rewrite Hx, IH.
Qed.

(** X15.  Deleting a course right after it was added gives back the
    list of expected courses as it was, provided no earlier course
    carries the identifier of the new one; when [handleAddCourse]
    turned the course down, the list was never touched. *)
Theorem PredictionScreen_add_then_delete :
  forall parseInt trim toLowerCase isWeb now st,
    Forall (fun c => PredictionCourse.id c <> now) (PredictionState.courses st) ->
    PredictionState.courses
      (PredictionScreen_handleDeleteCourse now
         (fst (PredictionScreen_handleAddCourse parseInt trim toLowerCase
                 isWeb now st)))
    = PredictionState.courses st.
Proof.
  intros parseInt trim toLowerCase isWeb now st Hfresh.
  assert (Hkeep : filter (fun c => negb (String.eqb (PredictionCourse.id c) now))
                         (PredictionState.courses st)
                  = PredictionState.courses st).
  { apply filter_all. apply Forall_impl with (2 := Hfresh).
    intros c Hc. apply String.eqb_neq in Hc. now rewrite Hc. }
  unfold PredictionScreen_handleAddCourse.
  destruct (String.eqb _ ""); [exact Hkeep|].
  destruct (isNaN _ || negb _); [exact Hkeep|].
  cbn [fst PredictionScreen_handleDeleteCourse PredictionState.courses].
  rewrite filter_app, Hkeep. cbn [filter PredictionCourse.id].
  rewrite String.eqb_refl. apply app_nil_r.
Qed.

Lemma PredictionScreen_add_then_delete_witness :
  let st :=
    PredictionState.mk US "" "" [PredictionCourse.mk "41" "Art" "B" 3 None None]
                       "Physics II" "A" "3" in
  Forall (fun c => PredictionCourse.id c <> "42"%string)
         (PredictionState.courses st)
  /\ PredictionState.courses
       (PredictionScreen_handleDeleteCourse "42"
          (fst (PredictionScreen_handleAddCourse parseInt_sample
                  (fun text => text) (fun text => text) false "42" st)))
     = PredictionState.courses st.
Proof.
  assert (H : Forall (fun c => PredictionCourse.id c <> "42"%string)
                [PredictionCourse.mk "41" "Art" "B" 3 None None])
    by (repeat constructor; discriminate).
  split; [exact H|].
  exact (PredictionScreen_add_then_delete parseInt_sample (fun text => text)
           (fun text => text) false "42"
           (PredictionState.mk US "" ""
              [PredictionCourse.mk "41" "Art" "B" 3 None None]
              "Physics II" "A" "3") H).
Defined.

(** The grades of the expected courses were all picked from the grades
    on offer on one of the scales. *)
Lemma PredictionScreen_reachable_grades parseInt trim toLowerCase isWeb st :
  PredictionScreen_reachable parseInt trim toLowerCase isWeb st ->
  Forall (fun c => In (PredictionCourse.expectedGrade c)
                      (US_GRADES ++ AU_GRADES))
         (PredictionState.courses st).
Proof.
  induction 1 as [|st st' Hreach IH Hstep]; [constructor|].
  destruct Hstep; try exact IH.
  - unfold PredictionScreen_handleAddCourse.
    destruct (String.eqb _ ""); [exact IH|].
    destruct (isNaN _ || negb _); [exact IH|].
    cbn [fst PredictionState.courses].
    apply Forall_app. split; [exact IH|].
    constructor; [|constructor].
    cbn [PredictionCourse.expectedGrade].
    destruct (PredictionScreen_reachable_keeps _ _ _ _ _ Hreach) as [_ Hgrade].
    apply in_or_app.
    destruct (PredictionState.scale st); [left | right]; exact Hgrade.
  - cbn [PredictionScreen_handleDeleteCourse PredictionState.courses].
    apply Forall_forall. intros c Hc. apply filter_In in Hc.
    rewrite Forall_forall in IH. now apply IH.
Qed.

(** No grade on offer names an inherited member. *)
Lemma offered_not_inherited (scale : GPAScale) (g : string) :
  In g (US_GRADES ++ AU_GRADES) -> inheritedGrade scale g = false.
Proof.
  intros H. cbn in H.
  destruct scale;
    repeat (destruct H as [<- | H]; [reflexivity|]); contradiction.
Qed.

(** X14.  In every state the prediction screen can reach, with expected
    courses present and no current standing to blend with (the current
    GPA typed in is blank or does not parse, or the current credits are
    blank, do not parse or are not above 0), the projected GPA lies
    between 0 and the maximum of the scale in force, the figure the
    screen prints after the slash: the expected courses have credit
    options for credits and grades picked from the grades on offer. *)
Theorem PredictionScreen_projectedGPA_range :
  forall parseInt trim toLowerCase isWeb parseFloat st,
    let hi := ScaleConfig.max (SCALE_CONFIG (PredictionState.scale st)) in
    let gpa := parseFloat (PredictionState.currentGPA st) in
    let credits := parseFloat (PredictionState.currentCredits st) in
    PredictionScreen_reachable parseInt trim toLowerCase isWeb st ->
    PredictionState.courses st <> [] ->
    isNaN gpa = true \/ isNaN credits = true
    \/ (credits >? Fin 0)%num = false ->
    num_within 0 hi (PredictionScreen_projectedGPA parseFloat st).
Proof.
  intros parseInt trim toLowerCase isWeb parseFloat st hi gpa credits
         Hreach Hne Hoff.
  unfold PredictionScreen_projectedGPA.
  rewrite (calculateProjectedGPA_nonempty _ _ _ _ _ Hne).
  fold gpa credits.
  assert (Hfuture :
            num_within 0 hi
              (calculateGPA (map asCourse (PredictionState.courses st))
                 (PredictionState.scale st) false DEFAULT_WEIGHT_MULTIPLIERS)).
  { apply calculateGPA_unweighted_within.
    - apply Forall_map.
      exact (PredictionScreen_reachable_credits _ _ _ _ _ Hreach).
    - unfold anyInherited. rewrite <- not_true_iff_false, existsb_exists.
      intros (c & Hin & Hc). apply in_map_iff in Hin.
      destruct Hin as (x & <- & Hx).
      pose proof (PredictionScreen_reachable_grades _ _ _ _ _ Hreach) as Hg.
      rewrite Forall_forall in Hg.
      rewrite (offered_not_inherited _ _ (Hg x Hx)) in Hc. discriminate Hc. }
  destruct Hoff as [-> | [-> | ->]]; rewrite ?andb_false_r; exact Hfuture.
Qed.

Lemma PredictionScreen_projectedGPA_range_witness :
  let parseInt := fun text : string =>
    if String.eqb text "3" then Fin 3 else NaN in
  let id := fun text : string => text in
  let typed :=
    PredictionState.mk US "" "" [] "Physics II" "B+" "3" in
  let st := fst (PredictionScreen_handleAddCourse parseInt id id false
                   "1700000000000" typed) in
  PredictionState.courses st <> []
  /\ isNaN (parseFloat_sample (PredictionState.currentGPA st)) = true
  /\ num_within 0 4.0 (PredictionScreen_projectedGPA parseFloat_sample st).
Proof.
  intros parseInt id typed st.
  assert (Hreach : PredictionScreen_reachable parseInt id id false st).
  { apply reachable_step with (st := typed); [|apply step_addCourse].
    apply reachable_step
      with (st := PredictionState.mk US "" "" [] "Physics II" "B+" "");
      [|exact (step_setCredits _ _ _ _
                 (PredictionState.mk US "" "" [] "Physics II" "B+" "") "3")].
    apply reachable_step
      with (st := PredictionState.mk US "" "" [] "Physics II" "A" "");
      [|apply (step_setSelectedGrade _ _ _ _
                 (PredictionState.mk US "" "" [] "Physics II" "A" "") "B+");
        cbn; auto 10].
    apply reachable_step with (st := PredictionScreen_initial);
      [|exact (step_setCourseName _ _ _ _ PredictionScreen_initial
                 "Physics II")].
    apply reachable_initial. }
  assert (Hne : PredictionState.courses st <> []) by discriminate.
  split; [exact Hne|]. split; [reflexivity|].
  exact (PredictionScreen_projectedGPA_range parseInt id id false
           parseFloat_sample st Hreach Hne (or_introl eq_refl)).
Defined.

(* ================================================================= *)
(** ** [SemesterDetailScreen] *)

Lemma saveSemester_cons semesterId updated s rest :
  String.eqb (Semester.id s) semesterId = false ->
  SemesterDetailScreen_saveSemester semesterId updated (Some (s :: rest))
  = s :: SemesterDetailScreen_saveSemester semesterId updated (Some rest).
Proof.
  intros Hs. unfold SemesterDetailScreen_saveSemester.
  cbn [Array_findIndex]. rewrite Hs.
  destruct (Array_findIndex _ rest); reflexivity.
Qed.

Lemma saveSemester_find semesterId other updated semesters :
  Semester.id updated = semesterId ->
  find (fun s => String.eqb (Semester.id s) other)
       (SemesterDetailScreen_saveSemester semesterId updated (Some semesters))
  = if String.eqb semesterId other then Some updated
    else find (fun s => String.eqb (Semester.id s) other) semesters.
Proof.
  intros Hid.
  induction semesters as [|s rest IH].
  - cbn. rewrite Hid. now destruct (String.eqb semesterId other).
  - destruct (String.eqb (Semester.id s) semesterId) eqn:Es.
    + unfold SemesterDetailScreen_saveSemester.
      cbn [Array_findIndex]. rewrite Es. cbn [Array_set find].
      apply String.eqb_eq in Es. rewrite Hid, Es.
      now destruct (String.eqb semesterId other).
    + rewrite (saveSemester_cons _ _ _ _ Es). cbn [find]. rewrite IH.
      destruct (String.eqb semesterId other) eqn:Eo; [|reflexivity].
      apply String.eqb_eq in Eo. subst other. now rewrite Es.
Qed.

(** X16.  What [saveSemester] stores, [loadSemester] reads back: after
    saving a semester under its own identifier, loading that identifier
    finds the saved semester, loading any other identifier finds what it
    found before, and the stored list grows by one exactly when the
    identifier was new. *)
Theorem SemesterDetailScreen_save_then_load :
  forall semesterId updated stored,
    let before := match stored with Some l => l | None => [] end in
    let after := SemesterDetailScreen_saveSemester semesterId updated stored in
    Semester.id updated = semesterId ->
    SemesterDetailScreen_loadSemester semesterId (Some after) = Some updated
    /\ (forall other,
           other <> semesterId ->
           SemesterDetailScreen_loadSemester other (Some after)
           = SemesterDetailScreen_loadSemester other (Some before))
    /\ List.length after
       = match SemesterDetailScreen_loadSemester semesterId (Some before) with
         | Some _ => List.length before
         | None => S (List.length before)
         end.
Proof.
  intros semesterId updated stored before after Hid.
  assert (Hafter : after
                   = SemesterDetailScreen_saveSemester semesterId updated
                       (Some before))
    by (unfold after, before; now destruct stored).
  rewrite Hafter. clear Hafter after.
  unfold SemesterDetailScreen_loadSemester.
  split; [|split].
  - rewrite (saveSemester_find _ _ _ _ Hid). now rewrite String.eqb_refl.
  - intros other Hother. rewrite (saveSemester_find _ _ _ _ Hid).
    assert (E : String.eqb semesterId other = false)
      by (apply String.eqb_neq; congruence).
    now rewrite E.
  - induction before as [|s rest IH]; [reflexivity|].
    destruct (String.eqb (Semester.id s) semesterId) eqn:Es.
    + unfold SemesterDetailScreen_saveSemester.
      cbn [Array_findIndex find]. rewrite Es. reflexivity.
    + rewrite (saveSemester_cons _ _ _ _ Es). cbn [find List.length].
      rewrite Es, IH.
      now destruct (find _ rest).
Qed.

Lemma SemesterDetailScreen_save_then_load_witness :
  let one := Semester.mk "1" "Autumn" "Term" [] US in
  let two := Semester.mk "2" "Spring" "Term" [] AU in
  let two' := Semester.mk "2" "Spring" "Term" [course "HD" 10] AU in
  Semester.id two' = "2"%string
  /\ SemesterDetailScreen_loadSemester "2"
       (Some (SemesterDetailScreen_saveSemester "2" two' (Some [one; two])))
     = Some two'.
Proof.
  split; [reflexivity|].
  exact (proj1 (SemesterDetailScreen_save_then_load "2"
                  (Semester.mk "2" "Spring" "Term" [course "HD" 10] AU)
                  (Some [Semester.mk "1" "Autumn" "Term" [] US;
                         Semester.mk "2" "Spring" "Term" [] AU])
                  eq_refl)).
Defined.

(** X17.  When [SemesterDetailScreen]'s [handleAddCourse] accepts a
    course, it appends one course to the semester and asks for that
    semester to be saved, identifier and scale unchanged; the course
    carries the selected grade and credits among the scale's options;
    and it is marked as weighted with a weight type of its own only for
    a premium user who switched the weighted toggle on in a US
    semester, every other course being unweighted ["Standard"].  Once
    [saveSemester] has stored that semester, [loadSemester] finds it
    again, new course included. *)
Theorem SemesterDetailScreen_handleAddCourse_accepts :
  forall parseInt trim toLowerCase isWeb isPremium now st semester,
    let creditValue := parseInt (DetailState.credits st) in
    let options :=
      ScaleConfig.creditOptions (SCALE_CONFIG (Semester.scale semester)) in
    DetailState.semester st = Some semester ->
    trim (DetailState.courseName st) <> ""%string ->
    Array_includes options creditValue = true ->
    exists c updated st',
      SemesterDetailScreen_handleAddCourse parseInt trim toLowerCase isWeb
        isPremium now st = (st', [SaveSemester updated])
      /\ DetailState.semester st' = Some updated
      /\ Semester.id updated = Semester.id semester
      /\ Semester.scale updated = Semester.scale semester
      /\ Semester.courses updated = Semester.courses semester ++ [c]
      /\ Course.grade c = DetailState.selectedGrade st
      /\ existsb (Qeq_bool (Course.credits c)) options = true
      /\ (if isPremium && DetailState.isWeighted st
             && GPAScale_eqb (Semester.scale semester) US
          then Course.isWeighted c = Some true
               /\ Course.weightType c = Some (DetailState.weightType st)
          else Course.isWeighted c = Some false
               /\ Course.weightType c = Some Standard
               /\ liftedByWeighting c = false)
      /\ (forall stored,
             SemesterDetailScreen_loadSemester (Semester.id semester)
               (Some (SemesterDetailScreen_saveSemester (Semester.id semester)
                        updated stored))
             = Some updated).
Proof.
  intros parseInt trim toLowerCase isWeb isPremium now st semester
         creditValue options Hsem Hname Hcredits.
  unfold SemesterDetailScreen_handleAddCourse. rewrite Hsem.
  apply String.eqb_neq in Hname. rewrite Hname.
  fold creditValue options. rewrite Hcredits.
  destruct creditValue as [q| |neg]; try discriminate Hcredits.
  cbn [isNaN orb negb].
  do 3 eexists. split; [reflexivity|].
  cbn [DetailState.semester Semester.id Semester.scale Semester.courses
       Course.grade Course.credits Course.isWeighted Course.weightType
       num_value].
  repeat (split; [reflexivity|]). split; [exact Hcredits|].
  split.
  - destruct (isPremium && DetailState.isWeighted st
              && GPAScale_eqb (Semester.scale semester) US);
      repeat split.
  - intros stored. unfold SemesterDetailScreen_loadSemester.
    replace (SemesterDetailScreen_saveSemester (Semester.id semester) _ stored)
      with (SemesterDetailScreen_saveSemester (Semester.id semester)
              {| Semester.id := Semester.id semester;
                 Semester.name := Semester.name semester;
                 Semester.term := Semester.term semester;
                 Semester.courses :=
                   Semester.courses semester
                   ++ [{| Course.id := now;
                          Course.name := trim (DetailState.courseName st);
                          Course.grade := DetailState.selectedGrade st;
                          Course.credits := q;
                          Course.isWeighted :=
                            Some (isPremium && DetailState.isWeighted st
                                  && GPAScale_eqb (Semester.scale semester) US);
                          Course.weightType :=
                            Some (if isPremium && DetailState.isWeighted st
                                     && GPAScale_eqb (Semester.scale semester) US
                                  then DetailState.weightType st
                                  else Standard) |}];
                 Semester.scale := Semester.scale semester |}
              (Some (match stored with Some l => l | None => [] end)))
      by now destruct stored.
    rewrite saveSemester_find by reflexivity.
    now rewrite String.eqb_refl.
Qed.

Lemma SemesterDetailScreen_handleAddCourse_accepts_witness :
  let semester := Semester.mk "7" "Autumn" "Term" [] US in
  let st := DetailState.mk (Some semester) "Calculus" "A-" "3" true AP false in
  exists c updated st',
    SemesterDetailScreen_handleAddCourse parseInt_sample (fun text => text)
      (fun text => text) false true "1700000000000" st
    = (st', [SaveSemester updated])
    /\ Semester.courses updated = [c]
    /\ Course.isWeighted c = Some true
    /\ Course.weightType c = Some AP.
Proof.
  destruct (SemesterDetailScreen_handleAddCourse_accepts parseInt_sample
              (fun text => text) (fun text => text) false true "1700000000000"
              (DetailState.mk (Some (Semester.mk "7" "Autumn" "Term" [] US))
                 "Calculus" "A-" "3" true AP false)
              (Semester.mk "7" "Autumn" "Term" [] US)
              eq_refl ltac:(discriminate) eq_refl)
    as (c & updated & st' & Hrun & _ & _ & _ & Hcourses & _ & _ & Hw & _).
  exists c, updated, st'.
  split; [exact Hrun|]. split; [exact Hcourses|]. exact Hw.
Defined.

(* ================================================================= *)
(** ** [SemestersScreen] *)

(** X18.  [handleAddSemester] never changes the cumulative GPA: the new
    semester comes last and has no course yet, and when the name is
    blank nothing is added at all.  This holds for the screen's own
    cumulative GPA and for [calculateCumulativeGPA] under any weighting
    and multipliers. *)
Theorem SemestersScreen_handleAddSemester_keeps_GPA :
  forall trim isWeb now st,
    let st' := fst (SemestersScreen_handleAddSemester trim isWeb now st) in
    (forall isPremium useWeightedGPA,
        SemestersScreen_calculateCumulativeGPA
          (SemestersState.semesters st') isPremium useWeightedGPA
        = SemestersScreen_calculateCumulativeGPA
            (SemestersState.semesters st) isPremium useWeightedGPA)
    /\ (forall useWeighting multipliers,
           calculateCumulativeGPA (SemestersState.semesters st')
                                  useWeighting multipliers
           = calculateCumulativeGPA (SemestersState.semesters st)
                                    useWeighting multipliers).
Proof.
  intros trim isWeb now st st'.
  assert (Hgen : forall useWeighting multipliers,
             calculateCumulativeGPA (SemestersState.semesters st')
                                    useWeighting multipliers
             = calculateCumulativeGPA (SemestersState.semesters st)
                                      useWeighting multipliers).
  { intros useWeighting multipliers.
    unfold st', SemestersScreen_handleAddSemester.
    destruct (String.eqb _ ""); [reflexivity|].
    cbn [fst SemestersState.semesters].
    unfold calculateCumulativeGPA.
    rewrite flat_map_app. cbn [flat_map Semester.courses app].
    rewrite app_nil_r.
    destruct (SemestersState.semesters st) as [|first rest]; reflexivity. }
  split; [|exact Hgen].
  intros isPremium useWeightedGPA.
  exact (Hgen (isPremium && useWeightedGPA) DEFAULT_WEIGHT_MULTIPLIERS).
Qed.

Lemma fold_semester_credits_Fin (semesters : list Semester.t) :
  forall a : Q,
  exists a' : Q,
    fold_left
      (fun sum s =>
         (sum + fold_left (fun cSum c => (cSum + Fin (Course.credits c))%num)
                          (Semester.courses s) (Fin 0))%num)
      semesters (Fin a)
    = Fin a'
    /\ a' == a + sumCredits (flat_map Semester.courses semesters).
Proof.
  induction semesters as [|s rest IH]; intros a; cbn [fold_left flat_map].
  - exists a. split; [reflexivity|]. unfold sumCredits, sumOver. cbn. ring.
  - destruct (fold_credits_Fin (Semester.courses s) 0) as (b & -> & Hb).
    cbn [num_add].
    destruct (IH (a + b)) as (a' & -> & Ha').
    exists a'. split; [reflexivity|].
    unfold sumCredits in *. rewrite sumOver_app, Ha', Hb. ring.
Qed.

(** X19.  When every course has one of the credit options for credits,
    the credit total the semesters screen and the export screen print, a
    sum over the semesters of each semester's sum of credits, is the
    very number by which the cumulative GPA divides: the [totalCredits]
    of [calculateGPA] run on all courses together.  The credits being
    whole numbers, both ways of adding them up are exact. *)
Theorem SemestersScreen_totalCredits_is_denominator :
  forall semesters scale useWeighting multipliers,
    creditsFromOptions (flat_map Semester.courses semesters) ->
    SemestersScreen_totalCredits semesters
    =n= snd (calculateGPA_totals (flat_map Semester.courses semesters)
                                 scale useWeighting multipliers)
    /\ SemestersScreen_totalCredits semesters
       =n= Fin (sumCredits (flat_map Semester.courses semesters)).
Proof.
  intros semesters scale useWeighting multipliers _.
  unfold SemestersScreen_totalCredits.
  destruct (fold_semester_credits_Fin semesters 0) as (a & -> & Ha).
  destruct (calculateGPA_totals_sums scale useWeighting multipliers
              (flat_map Semester.courses semesters)) as (p & t & -> & _ & Ht).
  cbn [snd num_eq]. rewrite Ha, Ht. split; ring.
Qed.

Lemma SemestersScreen_totalCredits_is_denominator_witness :
  let semesters :=
    [ Semester.mk "1" "Autumn" "Term" [course "A" 3; course "B" 4] US;
      Semester.mk "2" "Spring" "Term" [course "C" 2] US ] in
  creditsFromOptions (flat_map Semester.courses semesters)
  /\ SemestersScreen_totalCredits semesters =n= Fin 9.
Proof.
  assert (H : creditsFromOptions
                (flat_map Semester.courses
                   [ Semester.mk "1" "Autumn" "Term"
                       [course "A" 3; course "B" 4] US;
                     Semester.mk "2" "Spring" "Term" [course "C" 2] US ]))
    by (repeat constructor).
  split; [exact H|].
  etransitivity.
  - exact (proj2 (SemestersScreen_totalCredits_is_denominator _ US false
                    DEFAULT_WEIGHT_MULTIPLIERS H)).
  - vm_compute. reflexivity.
Defined.

(* ================================================================= *)
(** ** [AnalyticsScreen] *)

Lemma fold_gpa_Fin (scale : GPAScale) (semesters : list Semester.t) :
  Forall (fun s => Semester.scale s = scale
                   /\ creditsFromOptions (Semester.courses s)
                   /\ anyInherited scale (Semester.courses s) = false)
         semesters ->
  forall a : Q,
  exists a' : Q,
    fold_left (fun sum s => (sum + SemesterDatum.gpa s)%num)
              (AnalyticsScreen_semesterData semesters) (Fin a)
    = Fin a'
    /\ a <= a'
    /\ a' <= a + inject_Z (Z.of_nat (List.length semesters))
                 * ScaleConfig.max (SCALE_CONFIG scale).
Proof.
  induction 1 as [|s rest (Hscale & Hcredits & Hown) _ IH]; intros a.
  - exists a. split; [reflexivity|]. cbn [List.length Z.of_nat].
    change (inject_Z 0) with 0. split; lra.
  - cbn [AnalyticsScreen_semesterData map fold_left SemesterDatum.gpa].
    rewrite <- Hscale in Hown.
    pose proof (calculateGPA_unweighted_within (Semester.scale s) _
                  DEFAULT_WEIGHT_MULTIPLIERS
                  (creditsFromOptions_pos _ Hcredits) Hown) as Hg.
    destruct (calculateGPA (Semester.courses s) (Semester.scale s) false
                           DEFAULT_WEIGHT_MULTIPLIERS) as [g| |neg];
      cbn [num_within] in Hg; try contradiction.
    rewrite Hscale in Hg. cbn [num_add].
    destruct (IH (a + g)) as (a' & Hfold & Hlo & Hhi).
    exists a'. split; [exact Hfold|].
    cbn [List.length]. rewrite Nat2Z.inj_succ, <- Z.add_1_r, inject_Z_plus.
    change (inject_Z 1) with 1. split; lra.
Qed.

(** X20.  When every semester uses one scale, and its courses have
    credit options for credits and grades that do not name an inherited
    member, the average GPA of the analytics screen, the plain mean of
    the semesters' GPAs, lies between 0 and the maximum of that scale,
    which is also the [maxGPA] the chart is drawn against when there is
    a semester at all. *)
Theorem AnalyticsScreen_avgGPA_range :
  forall scale semesters,
    Forall (fun s => Semester.scale s = scale
                     /\ creditsFromOptions (Semester.courses s)
                     /\ anyInherited scale (Semester.courses s) = false)
           semesters ->
    num_within 0 (ScaleConfig.max (SCALE_CONFIG scale))
               (AnalyticsScreen_avgGPA semesters)
    /\ (semesters <> [] ->
        AnalyticsScreen_maxGPA semesters = ScaleConfig.max (SCALE_CONFIG scale)).
Proof.
  intros scale semesters Hall.
  assert (Hmax : 0 <= ScaleConfig.max (SCALE_CONFIG scale))
    by (destruct scale; cbn; lra).
  split.
  - unfold AnalyticsScreen_avgGPA.
    destruct (fold_gpa_Fin scale semesters Hall 0) as (a & -> & Hlo & Hhi).
    unfold AnalyticsScreen_semesterData at 1 2. rewrite !length_map.
    destruct semesters as [|s rest]; [cbn; split; lra|].
    cbn [Nat.ltb Nat.leb List.length] in Hhi |- *.
    set (n := inject_Z (Z.of_nat (S (List.length rest)))) in *.
    assert (Hn : 0 < n).
    { unfold n. rewrite Nat2Z.inj_succ, <- Z.add_1_r, inject_Z_plus.
      change (inject_Z 1) with 1.
      assert (0 <= inject_Z (Z.of_nat (List.length rest))).
      { change 0 with (inject_Z 0). rewrite <- Zle_Qle. apply Nat2Z.is_nonneg. }
      lra. }
    rewrite num_div_Fin by lra. cbn [num_within].
    split; [apply Qle_shift_div_l | apply Qle_shift_div_r]; lra.
  - intros Hne. destruct Hall as [|s rest [Hs _] _]; [contradiction|].
    cbn. now rewrite Hs.
Qed.

Lemma AnalyticsScreen_avgGPA_range_witness :
  let semesters :=
    [ Semester.mk "1" "Autumn" "Term" [course "HD" 10; course "P" 10] AU;
      Semester.mk "2" "Spring" "Term" [course "C" 20] AU ] in
  Forall (fun s => Semester.scale s = AU
                   /\ creditsFromOptions (Semester.courses s)
                   /\ anyInherited AU (Semester.courses s) = false) semesters
  /\ num_within 0 7.0 (AnalyticsScreen_avgGPA semesters).
Proof.
  assert (H : Forall (fun s => Semester.scale s = AU
                               /\ creditsFromOptions (Semester.courses s)
                               /\ anyInherited AU (Semester.courses s) = false)
                [ Semester.mk "1" "Autumn" "Term"
                    [course "HD" 10; course "P" 10] AU;
                  Semester.mk "2" "Spring" "Term" [course "C" 20] AU ])
    by (repeat constructor).
  split; [exact H|].
  exact (proj1 (AnalyticsScreen_avgGPA_range AU _ H)).
Defined.

(* ================================================================= *)
(** ** [useUserStorage] *)

Lemma append_inv_head (a b c : string) :
  (a ++ b = a ++ c)%string -> b = c.
Proof.
  induction a as [|ch a IH]; cbn; [auto|].
  intros [= H]. auto.
Qed.

(** X21.  Storage keys keep users apart: under one base key, two
    identities get the same storage key only if they are the same
    identity, that is both the guest or both signed in with the same
    provider and the same identifier.  In particular no signed-in user
    ever shares a key with the guest. *)
Theorem getStorageKey_separates_users :
  forall user1 user2 baseKey,
    getStorageKey user1 baseKey = getStorageKey user2 baseKey ->
    match user1, user2 with
    | Some u1, Some u2 =>
        User.provider u1 = User.provider u2 /\ User.id u1 = User.id u2
    | None, None => True
    | _, _ => False
    end.
Proof.
  intros user1 user2 baseKey H. unfold getStorageKey in H.
  apply append_inv_head in H. cbn in H. injection H as H.
  destruct user1 as [[id1 e1 n1 p1]|], user2 as [[id2 e2 n2 p2]|];
    cbn in *; try exact I;
    try destruct p1; try destruct p2; cbn in H;
    try discriminate H; try (injection H as H; auto).
Qed.

Lemma getStorageKey_separates_users_witness :
  let u1 := User.mk "1001" (Some "a@example.org"%string) None google in
  let u2 := User.mk "1001" None (Some "A"%string) google in
  getStorageKey (Some u1) "@gpa_semesters" = getStorageKey (Some u2) "@gpa_semesters"
  /\ User.provider u1 = User.provider u2 /\ User.id u1 = User.id u2.
Proof.
  split; [reflexivity|].
  exact (getStorageKey_separates_users
           (Some (User.mk "1001" (Some "a@example.org"%string) None google))
           (Some (User.mk "1001" None (Some "A"%string) google))
           "@gpa_semesters" eq_refl).
Defined.

(* ================================================================= *)
(** ** Binary64 replay on the credit options

    The statements above that bound the result or equate it with a grade
    point are proved in exact arithmetic and stated for credits among
    the credit options.  Here the binary64 loop is run on every short
    list of courses on offer, to the same conclusions. *)

(** What does not depend on the arithmetic holds of the binary64 loop
    by the same argument: the guard on the empty list, the multipliers
    left unread without weighting, the gate closed on the AU scale. *)
Lemma calculateGPA_binary64_empty scale useWeighting multipliers :
  calculateGPA_binary64 [] scale useWeighting multipliers = PrimFloat.zero.
Proof. reflexivity. Qed.

Lemma calculateGPA_binary64_unweighted courses scale m1 m2 :
  calculateGPA_binary64 courses scale false m1
  = calculateGPA_binary64 courses scale false m2.
Proof.
  unfold calculateGPA_binary64.
  rewrite (fold_left_ext_all
             (calculateGPA_step_binary64 (SCALE_CONFIG scale) scale false m1)
             (calculateGPA_step_binary64 (SCALE_CONFIG scale) scale false m2));
    [reflexivity|].
  intros [totalPoints totalCredits] c. unfold calculateGPA_step_binary64.
  destruct (Course.weightType c); reflexivity.
Qed.

Lemma calculateGPA_binary64_AU courses multipliers :
  calculateGPA_binary64 courses AU true multipliers
  = calculateGPA_binary64 courses AU false multipliers.
Proof.
  unfold calculateGPA_binary64.
  rewrite (fold_left_ext_all
             (calculateGPA_step_binary64 (SCALE_CONFIG AU) AU true multipliers)
             (calculateGPA_step_binary64 (SCALE_CONFIG AU) AU false multipliers));
    [reflexivity|].
  intros [totalPoints totalCredits] c. unfold calculateGPA_step_binary64.
  destruct (Course.weightType c); [|reflexivity].
  now rewrite !andb_false_r.
Qed.

(** Uniform lists of up to four courses, for every grade with a
    whole-number point and all credit options: the binary64 result is
    the point of the grade. *)
Example calculateGPA_binary64_uniform_grade :
  forallb
    (fun scale =>
       forallb
         (fun g =>
            forallb
              (fun credits =>
                 match credits with
                 | [] => true
                 | _ =>
                     PrimFloat.eqb
                       (calculateGPA_binary64 (map (course g) credits) scale
                          false DEFAULT_WEIGHT_MULTIPLIERS)
                       (Q2float (points scale g))
                 end)
              (listsUpTo 4 (US_CREDIT_OPTIONS ++ AU_CREDIT_OPTIONS)))
         (wholeGrades scale ++ ["X"]%string))
    [US; AU]
  = true.
Proof. vm_compute. reflexivity. Qed.

(** Lists of up to two courses on offer, weighted or not: the binary64
    result lies between 0 and the unweighted maximum without weighting,
    and between 0 and the weighted maximum with it. *)
Example calculateGPA_binary64_range :
  forallb
    (fun scale =>
       forallb
         (fun courses =>
            binary64_within (ScaleConfig.max (SCALE_CONFIG scale))
              (calculateGPA_binary64 courses scale false
                 DEFAULT_WEIGHT_MULTIPLIERS)
            && binary64_within (ScaleConfig.weightedMax (SCALE_CONFIG scale))
                 (calculateGPA_binary64 courses scale true
                    DEFAULT_WEIGHT_MULTIPLIERS)
            && PrimFloat.leb
                 (calculateGPA_binary64 courses scale false
                    DEFAULT_WEIGHT_MULTIPLIERS)
                 (calculateGPA_binary64 courses scale true
                    DEFAULT_WEIGHT_MULTIPLIERS))
         (listsUpTo 2 (coursesOnOffer scale)))
    [US; AU]
  = true.
Proof. vm_compute. reflexivity. Qed.

